(** * Versioning-state engine of the object API (lib/api/apiUtils/object/versioning.js)

    A shallow embedding of the functions of [versioning.js] and the
    properties of its decision functions and of the store/delete pipeline
    that [versioningPreprocessing] runs against the metadata backend,
    followed by [makeTagQuery] and [updateRequestContexts] of
    [tagConditionKeys.js], the caller of [decodeVersionId].

    Conventions of the embedding.
    - A JavaScript value that is either a string or [undefined] is an
      [option string]; [None] is [undefined].  The same holds for booleans,
      and for arrays of data locations.  Reading a property that an object
      does not have yields [undefined], so an absent property and a property
      holding [undefined] are both [None].
    - JavaScript objects used as structs are records, one module per shape,
      with the property names of the source.
    - Continuation-passing code is written in direct style in a state monad
      over the metadata backend; every call to a collaborator (metadata
      wrapper, version-id codec) is appended to a call log.
    - Logging ([log.debug], [log.warn]) has no influence on any result and
      is left out. *)

From Stdlib Require Import String Ascii ZArith List Bool.
Import ListNotations.

Set Implicit Arguments.
Local Open Scope string_scope.

(* ================================================================== *)
(** * JavaScript values *)

(** [ToBoolean]: the coercion applied by [if (x)], [!x], [x && y], [x || y]. *)
Class Truthy (A : Type) := truthy : A -> bool.

(** A string is truthy unless it is empty; [undefined] is falsy. *)
#[global] Instance truthy_string : Truthy (option string) :=
  fun v => match v with
           | Some s => negb (String.eqb s "")
           | None => false
           end.

#[global] Instance truthy_bool : Truthy (option bool) :=
  fun v => match v with
           | Some b => b
           | None => false
           end.

(** Arrays are objects: always truthy, even when empty. *)
#[global] Instance truthy_array (A : Type) : Truthy (option (list A)) :=
  fun v => match v with
           | Some _ => true
           | None => false
           end.

(** [x === undefined]. *)
Definition is_undefined {A : Type} (v : option A) : bool :=
  match v with
  | None => true
  | Some _ => false
  end.

(** [x === y] on values that are strings or [undefined]. *)
Definition strict_eq (x y : option string) : bool :=
  match x, y with
  | None, None => true
  | Some a, Some b => String.eqb a b
  | _, _ => false
  end.

(** [x || undefined]. *)
Definition or_undefined (x : option string) : option string :=
  if truthy x then x else None.

(** JavaScript numbers restricted to the integers, with [None] for [NaN]
    (the result of arithmetic on [undefined]).  Time values and day counts
    are integers far below 2^53, where double arithmetic is exact. *)
Definition number := option Z.

Definition js_mul (a b : number) : number :=
  match a, b with
  | Some x, Some y => Some (x * y)%Z
  | _, _ => None
  end.

Definition js_add (a b : number) : number :=
  match a, b with
  | Some x, Some y => Some (x + y)%Z
  | _, _ => None
  end.

(** [Date] objects: a time value in milliseconds since the epoch, or the
    invalid date.  [new Date(n)] clips [n] to the range of time values
    (ECMAScript TimeClip): beyond 8.64e15 ms the date is invalid. *)
Module JSDate.

Inductive t : Type :=
| Valid (tv : Z)
| Invalid.

Definition maxTime : Z := 8640000000000000.

Definition in_range (v : Z) : bool :=
  ((- maxTime <=? v) && (v <=? maxTime))%Z.

Definition new (n : number) : t :=
  match n with
  | Some v => if in_range v then Valid v else Invalid
  | None => Invalid
  end.

End JSDate.

(* ================================================================== *)
(** * Errors of the arsenal library *)

(** Modelled from the spec: the [errors] table of arsenal, which is not part
    of the sources.  An error has a type tag, tested by [err.is.<Type>], and
    a description that [customizeDescription] replaces ([None] stands for
    the default text of the library). *)
Module ArsenalError.

Record t : Type := mk {
  type : string;
  description : option string;
}.

Definition customizeDescription (e : t) (d : string) : t :=
  mk (type e) (Some d).

Definition is_NoSuchKey (e : t) : bool := String.eqb (type e) "NoSuchKey".

End ArsenalError.

Module errors.
Definition NoSuchKey : ArsenalError.t := ArsenalError.mk "NoSuchKey" None.
Definition InternalError : ArsenalError.t := ArsenalError.mk "InternalError" None.
Definition InvalidArgument : ArsenalError.t := ArsenalError.mk "InvalidArgument" None.
End errors.

(** The arguments a Node-style callback is called with: [callback(err, value)].
    [callback(null, v)] is [(None, Some v)], [callback(err)] is [(Some err, None)]. *)
Definition callback_args (A : Type) : Type := (option ArsenalError.t * option A)%type.

(* ================================================================== *)
(** * Data model *)

(** The [location] property of an object metadata record: absent, [null],
    one data-location object, or an array of them.  Data locations are
    objects, hence truthy; [Loc] is their type. *)
Inductive Location (Loc : Type) : Type :=
| LocUndefined
| LocNull
| LocObject (l : Loc)
| LocArray (ls : list Loc).

Arguments LocUndefined {Loc}.
Arguments LocNull {Loc}.

#[global] Instance truthy_location (Loc : Type) : Truthy (Location Loc) :=
  fun v => match v with
           | LocUndefined | LocNull => false
           | LocObject _ | LocArray _ => true
           end.

(** [Array.isArray(location) ? location : [location]], for a truthy location. *)
Definition location_as_array {Loc : Type} (v : Location Loc) : option (list Loc) :=
  match v with
  | LocArray ls => Some ls
  | LocObject l => Some [l]
  | LocUndefined | LocNull => None
  end.

(** [objMD.archive] *)
Module Archive.
Record t : Type := mk {
  archiveInfo : option string;
  restoreRequestedAt : option Z;
  restoreRequestedDays : number;
}.
End Archive.

(** Object metadata, as parsed from JSON. *)
Module ObjectMD.
Record t (Loc : Type) : Type := mk {
  versionId : option string;
  uploadId : option string;
  isNull : option bool;
  nullVersionId : option string;
  nullUploadId : option string;
  location : Location Loc;
  creation_time : option string;
  last_modified : option string;
  archive : option Archive.t;
}.

(** The object [{}]. *)
Definition empty {Loc : Type} : t Loc :=
  mk None None None None None LocUndefined None None None.
End ObjectMD.

(** State of the master version, as returned by [getMasterState]. *)
Module MasterState.
Record t (Loc : Type) : Type := mk {
  exists_ : option bool;
  versionId : option string;
  uploadId : option string;
  isNull : option bool;
  nullVersionId : option string;
  nullUploadId : option string;
  objLocation : option (list Loc);
}.

(** The object [{}]: every property reads as [undefined]. *)
Definition empty {Loc : Type} : t Loc :=
  mk None None None None None None None.
End MasterState.

(** [options]: versioning instructions for the write of the new record. *)
Module Options.
Record t (Loc : Type) : Type := mk {
  versionId : option string;
  isNull : option bool;
  versioning : option bool;
  nullVersionId : option string;
  nullUploadId : option string;
  dataToDelete : option (list Loc);
}.

Definition empty {Loc : Type} : t Loc := mk None None None None None None.

Section Assign.
Context {Loc : Type}.
Definition set_versionId (v : option string) (o : t Loc) : t Loc :=
  mk v (isNull o) (versioning o) (nullVersionId o) (nullUploadId o) (dataToDelete o).
Definition set_isNull (v : option bool) (o : t Loc) : t Loc :=
  mk (versionId o) v (versioning o) (nullVersionId o) (nullUploadId o) (dataToDelete o).
Definition set_versioning (v : option bool) (o : t Loc) : t Loc :=
  mk (versionId o) (isNull o) v (nullVersionId o) (nullUploadId o) (dataToDelete o).
Definition set_nullVersionId (v : option string) (o : t Loc) : t Loc :=
  mk (versionId o) (isNull o) (versioning o) v (nullUploadId o) (dataToDelete o).
Definition set_nullUploadId (v : option string) (o : t Loc) : t Loc :=
  mk (versionId o) (isNull o) (versioning o) (nullVersionId o) v (dataToDelete o).
Definition set_dataToDelete (v : option (list Loc)) (o : t Loc) : t Loc :=
  mk (versionId o) (isNull o) (versioning o) (nullVersionId o) (nullUploadId o) v.
End Assign.
End Options.

(** [storeOptions]: how to store the master as a new null version key. *)
Module StoreOptions.
Record t : Type := mk {
  versionId : option string;
  isNull : option bool;
}.
Definition empty : t := mk None None.
Definition set_versionId (v : option string) (o : t) : t := mk v (isNull o).
Definition set_isNull (v : option bool) (o : t) : t := mk (versionId o) v.
End StoreOptions.

(** [delOptions]: which null version key to delete.  The same shape is the
    [options] argument of [metadata.getObjectMD] and [metadata.deleteObjectMD]. *)
Module DelOptions.
Record t : Type := mk {
  versionId : option string;
  replayId : option string;
}.
Definition empty : t := mk None None.
Definition set_versionId (v : option string) (o : t) : t := mk v (replayId o).
Definition set_replayId (v : option string) (o : t) : t := mk (versionId o) v.
End DelOptions.

(** The object returned by [processVersioningState]; [storeOptions] and
    [delOptions] are properties it may not have. *)
Module Decision.
Record t (Loc : Type) : Type := mk {
  options : Options.t Loc;
  storeOptions : option StoreOptions.t;
  delOptions : option DelOptions.t;
}.
End Decision.

(** [params] of [metadata.putObjectMD] in [_storeNullVersionMD]. *)
Module PutParams.
Record t : Type := mk { versionId : option string }.
End PutParams.

(** Bucket metadata: only [getVersioningConfiguration()] is used. *)
Module VersioningConfiguration.
Record t : Type := mk { Status : option string }.
End VersioningConfiguration.

Module BucketMD.
Record t : Type := mk {
  getVersioningConfiguration : option VersioningConfiguration.t;
}.
End BucketMD.

(** [options] of [preprocessingVersioningDelete]. *)
Module DeleteOptions.
Record t : Type := mk {
  deleteData : option bool;
  versionId : option string;
  isNull : option bool;
  replayId : option string;
}.
Definition empty : t := mk None None None None.
Definition set_deleteData (v : option bool) (o : t) : t :=
  mk v (versionId o) (isNull o) (replayId o).
Definition set_versionId (v : option string) (o : t) : t :=
  mk (deleteData o) v (isNull o) (replayId o).
Definition set_isNull (v : option bool) (o : t) : t :=
  mk (deleteData o) (versionId o) v (replayId o).
Definition set_replayId (v : option string) (o : t) : t :=
  mk (deleteData o) (versionId o) (isNull o) v.
End DeleteOptions.

(** The request query object: only [versionId] is read. *)
Module Query.
Record t : Type := mk { versionId : option string }.
End Query.

(** [metadataStoreParams.archive] as written by [overwritingVersioning]. *)
Module ArchiveParams.
Record t : Type := mk {
  archiveInfo : option string;
  restoreRequestedAt : option Z;
  restoreRequestedDays : number;
  restoreCompletedAt : JSDate.t;
  restoreWillExpireAt : JSDate.t;
}.
End ArchiveParams.

(** [metadataStoreParams]: the properties that [overwritingVersioning]
    assigns, and [rest] for the properties the caller built, which the
    function does not touch. *)
Module MetadataStoreParams.
Record t : Type := mk {
  creationTime : option string;
  lastModifiedDate : option string;
  updateMicroVersionId : option bool;
  archive : option ArchiveParams.t;
  rest : list (string * string);
}.
Definition set_creationTime (v : option string) (p : t) : t :=
  mk v (lastModifiedDate p) (updateMicroVersionId p) (archive p) (rest p).
Definition set_lastModifiedDate (v : option string) (p : t) : t :=
  mk (creationTime p) v (updateMicroVersionId p) (archive p) (rest p).
Definition set_updateMicroVersionId (v : option bool) (p : t) : t :=
  mk (creationTime p) (lastModifiedDate p) v (archive p) (rest p).
Definition set_archive (v : option ArchiveParams.t) (p : t) : t :=
  mk (creationTime p) (lastModifiedDate p) (updateMicroVersionId p) v (rest p).
End MetadataStoreParams.

(** The object returned by [overwritingVersioning]. *)
Module OverwriteOptions.
Record t : Type := mk {
  versionId : option string;
  isNull : option bool;
  nullVersionId : option string;
}.
End OverwriteOptions.

(* ================================================================== *)
(** * Collaborators and the effect monad *)

(** What [versionIdUtils.decode] does with a string: it throws, it returns
    an [Error] object, or it returns the decoded identifier. *)
Inductive DecodeOutcome : Type :=
| DecodeThrows
| DecodeReturnsError
| DecodeReturns (decoded : string).

(** The collaborators that are required from outside the sources: the
    metadata wrapper, the version-id codec of arsenal, and the configured
    replication group.  [Store] is the state of the metadata backend; each
    operation reports what its callback receives and the state it leaves.
    [nonVersionedObjId] is [versionIdUtils.getInfVid(config.replicationGroupId)]. *)
Class Collaborators (Loc : Type) : Type := {
  Store : Type;
  metadata_putObjectMD :
    string -> string -> ObjectMD.t Loc -> PutParams.t -> Store ->
    option ArsenalError.t * Store;
  metadata_getObjectMD :
    string -> string -> DelOptions.t -> Store ->
    (ArsenalError.t + ObjectMD.t Loc) * Store;
  metadata_deleteObjectMD :
    string -> string -> DelOptions.t -> Store ->
    option ArsenalError.t * Store;
  versionIdUtils_decode : string -> DecodeOutcome;
  nonVersionedObjId : string;
}.

(** One entry of the call log per call to a collaborator. *)
Inductive Call (Loc : Type) : Type :=
| CallPutObjectMD (bucketName objKey : string) (objMD : ObjectMD.t Loc) (params : PutParams.t)
| CallGetObjectMD (bucketName objKey : string) (options : DelOptions.t)
| CallDeleteObjectMD (bucketName objKey : string) (options : DelOptions.t)
| CallDecode (versionId : string).

Arguments CallGetObjectMD {Loc}.
Arguments CallDeleteObjectMD {Loc}.
Arguments CallDecode {Loc}.

Section Effects.
Context {Loc : Type} {C : Collaborators Loc}.

(** The world a request runs in: the metadata backend and the calls made
    so far, oldest first. *)
Record World : Type := mkWorld {
  store : Store;
  calls : list (Call Loc);
}.

Definition M (A : Type) : Type := World -> A * World.

Definition ret {A : Type} (a : A) : M A := fun w => (a, w).

Definition bind {A B : Type} (m : M A) (k : A -> M B) : M B :=
  fun w => let (a, w') := m w in k a w'.

Definition putObjectMD (bucketName objKey : string) (objMD : ObjectMD.t Loc)
  (params : PutParams.t) : M (option ArsenalError.t) :=
  fun w =>
    let (err, s') := metadata_putObjectMD bucketName objKey objMD params (store w) in
    (err, mkWorld s' (calls w ++ [CallPutObjectMD bucketName objKey objMD params])).

Definition getObjectMD (bucketName objKey : string) (options : DelOptions.t)
  : M (ArsenalError.t + ObjectMD.t Loc) :=
  fun w =>
    let (res, s') := metadata_getObjectMD bucketName objKey options (store w) in
    (res, mkWorld s' (calls w ++ [CallGetObjectMD bucketName objKey options])).

Definition deleteObjectMD (bucketName objKey : string) (options : DelOptions.t)
  : M (option ArsenalError.t) :=
  fun w =>
    let (err, s') := metadata_deleteObjectMD bucketName objKey options (store w) in
    (err, mkWorld s' (calls w ++ [CallDeleteObjectMD bucketName objKey options])).

Definition decode (versionId : string) : M DecodeOutcome :=
  fun w =>
    (versionIdUtils_decode versionId,
     mkWorld (store w) (calls w ++ [CallDecode versionId])).

End Effects.

Arguments World Loc {C}.
Arguments M Loc {C} A.

Declare Scope js_scope.
Delimit Scope js_scope with js.
Notation "x <- m ;; k" := (bind m (fun x => k))
  (at level 61, m at next level, right associativity) : js_scope.
Local Open Scope js_scope.

(* ================================================================== *)
(** * The functions of versioning.js *)

Definition oneDay : Z := 24 * 60 * 60 * 1000.

Section Versioning.
Context {Loc : Type} {C : Collaborators Loc}.

(** [decodeVID]: a string result is [inr], an [Error] result is [inl]. *)
Definition decodeVID (versionId : string) : M Loc (ArsenalError.t + string) :=
  if String.eqb versionId "null" then ret (inr versionId)
  else
    let invalidErr :=
      ArsenalError.customizeDescription errors.InvalidArgument
        "Invalid version id specified" in
    decoded <- decode versionId ;;
    match decoded with
    | DecodeThrows => ret (inl invalidErr)
    | DecodeReturnsError => ret (inl invalidErr)
    | DecodeReturns d => ret (inr d)
    end.

(** [decodeVersionId]: [None] is the result [undefined]. *)
Definition decodeVersionId (reqQuery : option Query.t)
  : M Loc (option (ArsenalError.t + string)) :=
  match reqQuery with
  | None => ret None
  | Some q =>
      if negb (truthy (Query.versionId q)) then ret None
      else
        match Query.versionId q with
        | Some v => r <- decodeVID v ;; ret (Some r)
        | None => ret None
        end
  end.

(** [_storeNullVersionMD]: the callback receives [(err, options)]; the
    second component is what it was given. *)
Definition _storeNullVersionMD (bucketName objKey : string) (objMD : ObjectMD.t Loc)
  (options : PutParams.t) : M Loc (option ArsenalError.t * PutParams.t) :=
  err <- putObjectMD bucketName objKey objMD options ;;
  ret (err, options).

(** [_getNullVersionsToDelete]: [inl err] is [cb(err)], [inr d] is
    [cb(null, d)], and [inr None] also stands for the bare [cb()]. *)
Definition _getNullVersionsToDelete (bucketName objKey : string)
  (options : DelOptions.t) (mst : MasterState.t Loc)
  : M Loc (ArsenalError.t + option (list Loc)) :=
  if strict_eq (DelOptions.versionId options) (MasterState.versionId mst) then
    let dataToDelete := MasterState.objLocation mst in
    ret (inr dataToDelete)
  else
    r <- getObjectMD bucketName objKey options ;;
    match r with
    | inl err => ret (inl err)
    | inr versionMD =>
        if negb (truthy (ObjectMD.location versionMD)) then ret (inr None)
        else
          let dataToDelete := location_as_array (ObjectMD.location versionMD) in
          ret (inr dataToDelete)
    end.

Definition _deleteNullVersionMD (bucketName objKey : string)
  (options : DelOptions.t) (mst : MasterState.t Loc)
  : M Loc (ArsenalError.t + option (list Loc)) :=
  r <- _getNullVersionsToDelete bucketName objKey options mst ;;
  match r with
  | inl err => ret (inl err)
  | inr nullDataToDelete =>
      err <- deleteObjectMD bucketName objKey options ;;
      match err with
      | Some err => ret (inl err)
      | None => ret (inr nullDataToDelete)
      end
  end.

Definition processVersioningState (mst : MasterState.t Loc) (vstat : option string)
  : Decision.t Loc :=
  let options := Options.empty in
  let storeOptions := StoreOptions.empty in
  let delOptions := DelOptions.empty in
  if is_undefined (MasterState.versionId mst) || truthy (MasterState.isNull mst) then
    if strict_eq vstat (Some "Suspended") then
      let options := Options.set_versionId (Some "") options in
      let options := Options.set_isNull (Some true) options in
      let options := Options.set_dataToDelete (MasterState.objLocation mst) options in
      if truthy (MasterState.isNull mst) then
        let delOptions := DelOptions.set_versionId (MasterState.versionId mst) delOptions in
        let delOptions :=
          if truthy (MasterState.uploadId mst)
          then DelOptions.set_replayId (MasterState.uploadId mst) delOptions
          else delOptions in
        Decision.mk options None (Some delOptions)
      else Decision.mk options None None
    else
      let options := Options.set_versioning (Some true) options in
      if truthy (MasterState.exists_ mst) then
        let versionId :=
          if truthy (MasterState.isNull mst)
          then MasterState.versionId mst
          else Some nonVersionedObjId in
        let storeOptions := StoreOptions.set_versionId versionId storeOptions in
        let storeOptions := StoreOptions.set_isNull (Some true) storeOptions in
        let options := Options.set_nullVersionId versionId options in
        let options :=
          if truthy (MasterState.isNull mst) && truthy (MasterState.uploadId mst)
          then Options.set_nullUploadId (MasterState.uploadId mst) options
          else options in
        Decision.mk options (Some storeOptions) None
      else Decision.mk options None None
  else
    let nullVersionId := MasterState.nullVersionId mst in
    if strict_eq vstat (Some "Suspended") then
      let options := Options.set_versionId (Some "") options in
      let options := Options.set_isNull (Some true) options in
      if is_undefined nullVersionId then Decision.mk options None None
      else
        let delOptions := DelOptions.set_versionId nullVersionId delOptions in
        let delOptions :=
          if truthy (MasterState.nullUploadId mst)
          then DelOptions.set_replayId (MasterState.nullUploadId mst) delOptions
          else delOptions in
        Decision.mk options None (Some delOptions)
    else
      let options := Options.set_versioning (Some true) options in
      let options := Options.set_nullVersionId nullVersionId options in
      let options :=
        if truthy (MasterState.nullUploadId mst)
        then Options.set_nullUploadId (MasterState.nullUploadId mst) options
        else options in
      Decision.mk options None None.

(** [getMasterState]: [None] is a falsy [objMD] (no record). *)
Definition getMasterState (objMD : option (ObjectMD.t Loc)) : MasterState.t Loc :=
  match objMD with
  | None => MasterState.empty
  | Some objMD =>
      let mst :=
        MasterState.mk (Some true)
          (ObjectMD.versionId objMD)
          (ObjectMD.uploadId objMD)
          (ObjectMD.isNull objMD)
          (ObjectMD.nullVersionId objMD)
          (ObjectMD.nullUploadId objMD)
          None in
      if truthy (ObjectMD.location objMD) then
        MasterState.mk (MasterState.exists_ mst) (MasterState.versionId mst)
          (MasterState.uploadId mst) (MasterState.isNull mst)
          (MasterState.nullVersionId mst) (MasterState.nullUploadId mst)
          (location_as_array (ObjectMD.location objMD))
      else mst
  end.

(** [async.series] over tasks that share the closure variable [options]:
    the tasks run in order; the first task calling [next] with a truthy error
    ends the series with that error, later tasks are not run; results other
    than the error are not used by the final callback of this file. *)
Definition Task : Type :=
  Options.t Loc -> M Loc (option ArsenalError.t * Options.t Loc).

Fixpoint async_series (tasks : list Task) (options : Options.t Loc)
  : M Loc (option ArsenalError.t * Options.t Loc) :=
  match tasks with
  | [] => ret (None, options)
  | task :: rest =>
      r <- task options ;;
      match r with
      | (Some err, options) => ret (Some err, options)
      | (None, options) => async_series rest options
      end
  end.

(** [Object.assign({}, objMD, storeOptions)]: both properties of
    [storeOptions] are own properties and overwrite those of the record;
    a falsy [objMD] contributes nothing. *)
Definition assign_storeOptions (objMD : option (ObjectMD.t Loc))
  (storeOptions : StoreOptions.t) : ObjectMD.t Loc :=
  let md := match objMD with Some md => md | None => ObjectMD.empty end in
  ObjectMD.mk
    (StoreOptions.versionId storeOptions)
    (ObjectMD.uploadId md)
    (StoreOptions.isNull storeOptions)
    (ObjectMD.nullVersionId md)
    (ObjectMD.nullUploadId md)
    (ObjectMD.location md)
    (ObjectMD.creation_time md)
    (ObjectMD.last_modified md)
    (ObjectMD.archive md).

(** First task of the series in [versioningPreprocessing]. *)
Definition storeVersion (bucketName objectKey : string)
  (objMD : option (ObjectMD.t Loc)) (storeOptions : option StoreOptions.t) : Task :=
  fun options =>
    match storeOptions with
    | None => ret (None, options)
    | Some storeOptions =>
        let versionMD := assign_storeOptions objMD storeOptions in
        let params := PutParams.mk (StoreOptions.versionId storeOptions) in
        r <- _storeNullVersionMD bucketName objectKey versionMD params ;;
        ret (fst r, options)
    end.

(** Second task of the series in [versioningPreprocessing]. *)
Definition deleteNullVersion (bucketName objectKey : string)
  (mst : MasterState.t Loc) (delOptions : option DelOptions.t) : Task :=
  fun options =>
    match delOptions with
    | None => ret (None, options)
    | Some delOptions =>
        r <- _deleteNullVersionMD bucketName objectKey delOptions mst ;;
        match r with
        | inl err =>
            if ArsenalError.is_NoSuchKey err then ret (None, options)
            else ret (Some errors.InternalError, options)
        | inr nullDataToDelete =>
            ret (None, Options.set_dataToDelete nullDataToDelete options)
        end
    end.

(** [versioningPreprocessing]: the result is what [callback] receives,
    [(err, options)]. *)
Definition versioningPreprocessing (bucketName : string) (bucketMD : BucketMD.t)
  (objectKey : string) (objMD : option (ObjectMD.t Loc))
  : M Loc (option ArsenalError.t * Options.t Loc) :=
  let mst := getMasterState objMD in
  match BucketMD.getVersioningConfiguration bucketMD with
  | None =>
      let options := Options.set_dataToDelete (MasterState.objLocation mst) Options.empty in
      ret (None, options)
  | Some vCfg =>
      let d := processVersioningState mst (VersioningConfiguration.Status vCfg) in
      async_series
        [ storeVersion bucketName objectKey objMD (Decision.storeOptions d);
          deleteNullVersion bucketName objectKey mst (Decision.delOptions d) ]
        (Decision.options d)
  end.

(** [preprocessingVersioningDelete]: no metadata call is made; the result
    is what [callback] receives. *)
Definition preprocessingVersioningDelete (bucketName : string) (bucketMD : BucketMD.t)
  (objectMD : ObjectMD.t Loc) (reqVersionId : option string)
  : callback_args DeleteOptions.t :=
  let options := DeleteOptions.empty in
  match BucketMD.getVersioningConfiguration bucketMD with
  | None =>
      let options := DeleteOptions.set_deleteData (Some true) options in
      (None, Some options)
  | Some _ =>
      if truthy reqVersionId && negb (strict_eq reqVersionId (Some "null")) then
        let options := DeleteOptions.set_deleteData (Some true) options in
        let options := DeleteOptions.set_versionId reqVersionId options in
        let options :=
          if truthy (ObjectMD.uploadId objectMD)
          then DeleteOptions.set_replayId (ObjectMD.uploadId objectMD) options
          else options in
        (None, Some options)
      else if truthy reqVersionId then
        if is_undefined (ObjectMD.versionId objectMD) then
          let options := DeleteOptions.set_deleteData (Some true) options in
          (None, Some options)
        else if truthy (ObjectMD.isNull objectMD) then
          let options := DeleteOptions.set_deleteData (Some true) options in
          let options := DeleteOptions.set_versionId (ObjectMD.versionId objectMD) options in
          let options := DeleteOptions.set_isNull (Some true) options in
          let options :=
            if truthy (ObjectMD.uploadId objectMD)
            then DeleteOptions.set_replayId (ObjectMD.uploadId objectMD) options
            else options in
          (None, Some options)
        else if truthy (ObjectMD.nullVersionId objectMD) then
          let options := DeleteOptions.set_deleteData (Some true) options in
          let options := DeleteOptions.set_versionId (ObjectMD.nullVersionId objectMD) options in
          let options :=
            if truthy (ObjectMD.nullUploadId objectMD)
            then DeleteOptions.set_replayId (ObjectMD.nullUploadId objectMD) options
            else options in
          (None, Some options)
        else (Some errors.NoSuchKey, None)
      else (None, Some options)
  end.

(** [overwritingVersioning]: [now] is the value of [Date.now()]; the result
    is the mutated [metadataStoreParams] and the returned [options].
    [objMD.archive?.f] is [undefined] when the record has no [archive]. *)
Definition overwritingVersioning (objMD : ObjectMD.t Loc)
  (metadataStoreParams : MetadataStoreParams.t) (now : Z)
  : MetadataStoreParams.t * OverwriteOptions.t :=
  let archive_get {A : Type} (f : Archive.t -> option A) : option A :=
    match ObjectMD.archive objMD with
    | Some a => f a
    | None => None
    end in
  let metadataStoreParams :=
    MetadataStoreParams.set_creationTime (ObjectMD.creation_time objMD)
      metadataStoreParams in
  let metadataStoreParams :=
    MetadataStoreParams.set_lastModifiedDate (ObjectMD.last_modified objMD)
      metadataStoreParams in
  let metadataStoreParams :=
    MetadataStoreParams.set_updateMicroVersionId (Some true) metadataStoreParams in
  let days : number := archive_get Archive.restoreRequestedDays in
  let metadataStoreParams :=
    MetadataStoreParams.set_archive
      (Some (ArchiveParams.mk
               (archive_get Archive.archiveInfo)
               (archive_get Archive.restoreRequestedAt)
               (archive_get Archive.restoreRequestedDays)
               (JSDate.new (Some now))
               (JSDate.new (js_add (Some now) (js_mul days (Some oneDay))))))
      metadataStoreParams in
  let versionId := or_undefined (ObjectMD.versionId objMD) in
  let options :=
    OverwriteOptions.mk versionId (ObjectMD.isNull objMD) (ObjectMD.nullVersionId objMD) in
  (metadataStoreParams, options).

End Versioning.

(* ================================================================== *)
(** * The remaining functions of versioning.js *)

Section ResponseHeader.
Context {Loc : Type}.

(** [versionIdUtils.encode] of arsenal, from an internal version id to the
    string shown to clients. *)
Variable versionIdUtils_encode : string -> string.

(** [getVersionIdResHeader]: [objectMD] is dereferenced before it is tested,
    so it is a record here; the call of the encoder is reached with a truthy
    [versionId] only. *)
Definition getVersionIdResHeader (verCfg : option VersioningConfiguration.t)
  (objectMD : ObjectMD.t Loc) : option string :=
  match verCfg with
  | Some _ =>
      if truthy (ObjectMD.isNull objectMD)
         || negb (truthy (ObjectMD.versionId objectMD))
      then Some "null"
      else option_map versionIdUtils_encode (ObjectMD.versionId objectMD)
  | None => None
  end.

End ResponseHeader.

(** [checkQueryVersionId]: [None] is the result [undefined]. *)
Definition checkQueryVersionId (query : option Query.t) : option ArsenalError.t :=
  match query with
  | Some q =>
      if negb (is_undefined (Query.versionId q)) then
        let customMsg := "This operation does not accept a version-id." in
        Some (ArsenalError.customizeDescription errors.InvalidArgument customMsg)
      else None
  | None => None
  end.

(** Which collaborator a logged call went to. *)
Definition is_put_call {Loc : Type} (c : Call Loc) : bool :=
  match c with CallPutObjectMD _ _ _ _ => true | _ => false end.

Definition is_get_call {Loc : Type} (c : Call Loc) : bool :=
  match c with CallGetObjectMD _ _ _ => true | _ => false end.

Definition is_delete_call {Loc : Type} (c : Call Loc) : bool :=
  match c with CallDeleteObjectMD _ _ _ => true | _ => false end.

Definition is_decode_call {Loc : Type} (c : Call Loc) : bool :=
  match c with CallDecode _ => true | _ => false end.

(* ================================================================== *)
(** * Tag condition keys (lib/api/apiUtils/authorization/tagConditionKeys.js) *)

(** A tag set: the entries of the object, in the order of [Object.entries]. *)
Definition Tags : Type := list (string * string).

(** [makeTagQuery]: [i.join('=')] on the entry [[key, value]] is
    [key + '=' + value]. *)
Definition makeTagQuery (tags : Tags) : string :=
  String.concat "&" (map (fun i => fst i ++ "=" ++ snd i) tags).

(** What follows the first value in the query of a tag set: nothing when
    the other entries [tags] are none, ['&'] and their query otherwise. *)
Definition query_tail (tags : Tags) : string :=
  match tags with
  | [] => ""
  | _ :: _ => "&" ++ makeTagQuery tags
  end.

(** [occurs c s]: the character [c] occurs in the string [s]. *)
Fixpoint occurs (c : ascii) (s : string) : bool :=
  match s with
  | EmptyString => false
  | String x rest => Ascii.eqb x c || occurs c rest
  end.

(** A tag that [makeTagQuery] renders without ambiguity: no ['='] in the
    key and no ['&'] in the value. *)
Definition unambiguous_tag (i : string * string) : bool :=
  negb (occurs "="%char (fst i)) && negb (occurs "&"%char (snd i)).

(** The properties of the request that [updateRequestContexts] reads;
    [x_amz_tagging] is [request.headers['x-amz-tagging']]. *)
Module Request.
Record t : Type := mk {
  x_amz_tagging : option string;
  post : option string;
  objectKey : string;
  bucketName : string;
  query : option Query.t;
}.
End Request.

(** Modelled from the spec: the request contexts of arsenal, which are not
    part of the sources, reduced to the three properties that the setters
    called by [updateRequestContexts] assign. *)
Module RequestContext.
Record t : Type := mk {
  needTagEval : bool;
  requestObjTags : option string;
  existingObjTag : option string;
}.
Definition setNeedTagEval (v : bool) (rc : t) : t :=
  mk v (requestObjTags rc) (existingObjTag rc).
Definition setRequestObjTags (v : option string) (rc : t) : t :=
  mk (needTagEval rc) v (existingObjTag rc).
Definition setExistingObjTag (v : option string) (rc : t) : t :=
  mk (needTagEval rc) (requestObjTags rc) v.
End RequestContext.

(** What [tagConditionKeys.js] needs besides the collaborators of
    [versioning.js]: the [tags] property of a metadata record, which the
    record type of this development does not carry, and [parseTagXml] of
    arsenal, which calls back with an error or with the parsed tag set. *)
Class TagCollaborators (Loc : Type) : Type := {
  objMD_tags : ObjectMD.t Loc -> option Tags;
  parseTagXml : string -> ArsenalError.t + Tags;
}.

Section TagConditionKeys.
Context {Loc : Type} {C : Collaborators Loc} {T : TagCollaborators Loc}.

(** The body of the loop over the request contexts in the final callback
    of [updateRequestContexts]. *)
Definition setTagQueries (requestTagsQuery existingTagsQuery : option string)
  (rc : RequestContext.t) : RequestContext.t :=
  let rc := RequestContext.setNeedTagEval true rc in
  let rc :=
    if truthy requestTagsQuery
    then RequestContext.setRequestObjTags requestTagsQuery rc else rc in
  if truthy existingTagsQuery
  then RequestContext.setExistingObjTag existingTagsQuery rc else rc.

(** First task of the waterfall: the tag query of the request, [inr None]
    for [next(null, null)]. *)
Definition requestTags (request : Request.t) (apiMethod : string)
  : ArsenalError.t + option string :=
  if truthy (Request.x_amz_tagging request) then
    inr (Request.x_amz_tagging request)
  else if truthy (Request.post request) && String.eqb apiMethod "objectPutTagging" then
    match Request.post request with
    | Some post =>
        match parseTagXml post with
        | inl err => inl err
        | inr tags => inr (Some (makeTagQuery tags))
        end
    | None => inr None
    end
  else inr None.

(** [updateRequestContexts]: the result is what [cb] receives.  The test
    [err.NoSuchKey] of the source is the type test of the error. *)
Definition updateRequestContexts (request : Request.t)
  (requestContexts : list RequestContext.t) (apiMethod : string)
  : M Loc (callback_args (list RequestContext.t)) :=
  let finish (requestTagsQuery existingTagsQuery : option string) :=
    ret (None, Some (map (setTagQueries requestTagsQuery existingTagsQuery)
                       requestContexts)) in
  match requestTags request apiMethod with
  | inl err => ret (Some err, None)
  | inr requestTagsQuery =>
      let objectKey := Request.objectKey request in
      let bucketName := Request.bucketName request in
      decodedVidResult <- decodeVersionId (Request.query request) ;;
      match decodedVidResult with
      | Some (inl err) => ret (Some err, None)
      | _ =>
          let reqVersionId :=
            match decodedVidResult with
            | Some (inr versionId) => Some versionId
            | _ => None
            end in
          r <- getObjectMD bucketName objectKey (DelOptions.mk reqVersionId None) ;;
          match r with
          | inl err =>
              if ArsenalError.is_NoSuchKey err then finish requestTagsQuery None
              else ret (Some err, None)
          | inr objMD =>
              let existingTagsQuery := option_map makeTagQuery (objMD_tags objMD) in
              finish requestTagsQuery existingTagsQuery
          end
      end
  end.

End TagConditionKeys.

(* ================================================================== *)
(** * An in-memory metadata backend

    A concrete set of collaborators over data locations numbered by [nat],
    used to run the functions on explicit inputs.  The backend holds the
    version records of one object key; reading or deleting a version that
    is not there fails with [NoSuchKey], and writing fails with
    [ServiceUnavailable] while the backend is read-only. *)
Module MemBackend.

Record t : Type := mk {
  records : list (option string * ObjectMD.t nat);
  readOnly : bool;
}.

Definition has_version (v : option string) (r : option string * ObjectMD.t nat) : bool :=
  strict_eq (fst r) v.

Definition put (bucketName objKey : string) (objMD : ObjectMD.t nat)
  (params : PutParams.t) (s : t) : option ArsenalError.t * t :=
  if readOnly s then (Some (ArsenalError.mk "ServiceUnavailable" None), s)
  else
    let others :=
      filter (fun r => negb (has_version (PutParams.versionId params) r)) (records s) in
    (None, mk ((PutParams.versionId params, objMD) :: others) (readOnly s)).

Definition get (bucketName objKey : string) (options : DelOptions.t) (s : t)
  : (ArsenalError.t + ObjectMD.t nat) * t :=
  match find (has_version (DelOptions.versionId options)) (records s) with
  | Some r => (inr (snd r), s)
  | None => (inl errors.NoSuchKey, s)
  end.

Definition delete (bucketName objKey : string) (options : DelOptions.t) (s : t)
  : option ArsenalError.t * t :=
  if existsb (has_version (DelOptions.versionId options)) (records s) then
    if readOnly s then (Some (ArsenalError.mk "ServiceUnavailable" None), s)
    else
      (None,
       mk (filter (fun r => negb (has_version (DelOptions.versionId options) r)) (records s))
          (readOnly s))
  else (Some errors.NoSuchKey, s).

(** A codec that accepts exactly the identifiers starting with ["v"] and
    strips that letter. *)
Definition decode (versionId : string) : DecodeOutcome :=
  match versionId with
  | String "v"%char rest => DecodeReturns rest
  | String _ _ => DecodeReturnsError
  | EmptyString => DecodeThrows
  end.

Definition infVid : string := "99999999999999999999RG001  ".

Definition collaborators : Collaborators nat := {|
  Store := t;
  metadata_putObjectMD := put;
  metadata_getObjectMD := get;
  metadata_deleteObjectMD := delete;
  versionIdUtils_decode := decode;
  nonVersionedObjId := infVid;
|}.

(** A world with the given records and an empty call log. *)
Definition world (rs : list (option string * ObjectMD.t nat)) (ro : bool)
  : World nat (C := collaborators) :=
  mkWorld (C := collaborators) (mk rs ro) [].

(** A record with the given versioning properties and location. *)
Definition record (versionId uploadId : option string) (isNull : option bool)
  (nullVersionId nullUploadId : option string) (location : Location nat)
  : ObjectMD.t nat :=
  ObjectMD.mk versionId uploadId isNull nullVersionId nullUploadId location
    None None None.

(** Tag collaborators: every stored record carries the tag [env=prod];
    the XML parser rejects the body ["not xml"] and reads any other body as
    the value of the tag [k]. *)
Definition tagCollaborators : TagCollaborators nat := {|
  objMD_tags := fun _ => Some [("env", "prod")];
  parseTagXml := fun xml =>
    if String.eqb xml "not xml" then inl (ArsenalError.mk "MalformedXML" None)
    else inr [("k", xml)];
|}.

(** The encoder that goes with [decode]. *)
Definition encode (versionId : string) : string := String "v"%char versionId.

(** An object written before versioning was configured. *)
Definition unversioned : ObjectMD.t nat :=
  record None (Some "U0") None None None (LocArray [7]).

(** A master that is the null version ["V1"], created by upload ["U1"]. *)
Definition nullMaster : ObjectMD.t nat :=
  record (Some "V1") (Some "U1") (Some true) None None (LocArray [7]).

(** A versioned master ["V2"] that refers to the null version ["V1"]. *)
Definition versionedMaster : ObjectMD.t nat :=
  record (Some "V2") None None (Some "V1") (Some "U1") (LocArray [8]).

(** A versioned master ["V2"] of an object that has no null version. *)
Definition plainMaster : ObjectMD.t nat :=
  record (Some "V2") None None None None (LocArray [8]).

(** The record of the null version ["V1"], with a single data location. *)
Definition nullVersion : ObjectMD.t nat :=
  record (Some "V1") (Some "U1") (Some true) None None (LocObject 3).

Definition unconfigured : BucketMD.t := BucketMD.mk None.

(** A request on ["bucket"]/["key"] with the given tagging header, body
    and version id. *)
Definition request (header post versionId : option string) : Request.t :=
  Request.mk header post "key" "bucket" (Some (Query.mk versionId)).

(** A request context as it is before tags are evaluated. *)
Definition context : RequestContext.t := RequestContext.mk false None None.

Definition enabled : BucketMD.t :=
  BucketMD.mk (Some (VersioningConfiguration.mk (Some "Enabled"))).

Definition suspended : BucketMD.t :=
  BucketMD.mk (Some (VersioningConfiguration.mk (Some "Suspended"))).

End MemBackend.

(* ================================================================== *)
(** * Properties *)

Lemma strict_eq_refl (x : option string) : strict_eq x x = true.
Proof. destruct x as [s|]; simpl; [apply String.eqb_refl | reflexivity]. Qed.

Lemma strict_eq_true (x y : option string) : strict_eq x y = true <-> x = y.
Proof.
  split.
  - destruct x as [a|], y as [b|]; simpl; intro H; try discriminate; trivial.
    apply String.eqb_eq in H. now subst.
  - intros ->. apply strict_eq_refl.
Qed.

Lemma is_undefined_true {A : Type} (v : option A) : is_undefined v = true <-> v = None.
Proof. destruct v; simpl; split; intro H; try discriminate; trivial. Qed.

Lemma is_NoSuchKey_errors_NoSuchKey : ArsenalError.is_NoSuchKey errors.NoSuchKey = true.
Proof. reflexivity. Qed.

Lemma oneDay_ms : oneDay = 86400000%Z.
Proof. reflexivity. Qed.

Section Properties.
Context {Loc : Type} {C : Collaborators Loc}.

(** ** The decision of [processVersioningState], branch by branch *)

(** With the bucket suspended and a master that has no version id or is a
    null version. *)
Lemma processVersioningState_suspended_unversioned (mst : MasterState.t Loc) :
  is_undefined (MasterState.versionId mst) || truthy (MasterState.isNull mst) = true ->
  processVersioningState mst (Some "Suspended") =
    Decision.mk
      (Options.mk (Some "") (Some true) None None None (MasterState.objLocation mst))
      None
      (if truthy (MasterState.isNull mst)
       then Some (DelOptions.mk (MasterState.versionId mst)
                    (if truthy (MasterState.uploadId mst)
                     then MasterState.uploadId mst else None))
       else None).
Proof.
  intro H. unfold processVersioningState. rewrite H. simpl.
  destruct (truthy (MasterState.isNull mst)); simpl; [|reflexivity].
  destruct (truthy (MasterState.uploadId mst)); reflexivity.
Qed.

(** With the bucket not suspended and a master that has no version id or is
    a null version. *)
Lemma processVersioningState_enabled_unversioned (mst : MasterState.t Loc)
  (vstat : option string) :
  is_undefined (MasterState.versionId mst) || truthy (MasterState.isNull mst) = true ->
  strict_eq vstat (Some "Suspended") = false ->
  processVersioningState mst vstat =
    if truthy (MasterState.exists_ mst) then
      let versionId :=
        if truthy (MasterState.isNull mst)
        then MasterState.versionId mst else Some nonVersionedObjId in
      Decision.mk
        (Options.mk None None (Some true) versionId
           (if truthy (MasterState.isNull mst) && truthy (MasterState.uploadId mst)
            then MasterState.uploadId mst else None)
           None)
        (Some (StoreOptions.mk versionId (Some true)))
        None
    else
      Decision.mk (Options.mk None None (Some true) None None None) None None.
Proof.
  intros H Hv. unfold processVersioningState. rewrite H, Hv. simpl.
  destruct (truthy (MasterState.exists_ mst)); simpl; [|reflexivity].
  destruct (truthy (MasterState.isNull mst)); simpl; [|reflexivity].
  destruct (truthy (MasterState.uploadId mst)); reflexivity.
Qed.

(** With the bucket suspended and a versioned master that is not a null
    version. *)
Lemma processVersioningState_suspended_versioned (mst : MasterState.t Loc) :
  is_undefined (MasterState.versionId mst) || truthy (MasterState.isNull mst) = false ->
  processVersioningState mst (Some "Suspended") =
    Decision.mk
      (Options.mk (Some "") (Some true) None None None None)
      None
      (if is_undefined (MasterState.nullVersionId mst) then None
       else Some (DelOptions.mk (MasterState.nullVersionId mst)
                    (if truthy (MasterState.nullUploadId mst)
                     then MasterState.nullUploadId mst else None))).
Proof.
  intro H. unfold processVersioningState. rewrite H. simpl.
  destruct (is_undefined (MasterState.nullVersionId mst)); simpl; [reflexivity|].
  destruct (truthy (MasterState.nullUploadId mst)); reflexivity.
Qed.

(** With the bucket not suspended and a versioned master that is not a null
    version. *)
Lemma processVersioningState_enabled_versioned (mst : MasterState.t Loc)
  (vstat : option string) :
  is_undefined (MasterState.versionId mst) || truthy (MasterState.isNull mst) = false ->
  strict_eq vstat (Some "Suspended") = false ->
  processVersioningState mst vstat =
    Decision.mk
      (Options.mk None None (Some true) (MasterState.nullVersionId mst)
         (if truthy (MasterState.nullUploadId mst)
          then MasterState.nullUploadId mst else None)
         None)
      None None.
Proof.
  intros H Hv. unfold processVersioningState. rewrite H, Hv. simpl.
  destruct (truthy (MasterState.nullUploadId mst)); reflexivity.
Qed.

(** The bucket status is either ['Suspended'] or treated as enabled. *)
Lemma vstat_cases (vstat : option string) :
  vstat = Some "Suspended" \/ strict_eq vstat (Some "Suspended") = false.
Proof.
  destruct (strict_eq vstat (Some "Suspended")) eqn:E; [left | now right].
  now apply strict_eq_true.
Qed.

(** A decision that asks for a delete asks for no store, was taken for a
    suspended bucket, and reclaims the master's data exactly when the master
    is the null version, in which case the delete targets the master's own
    version id. *)
Lemma processVersioningState_delOptions (mst : MasterState.t Loc)
  (vstat : option string) (del : DelOptions.t) :
  Decision.delOptions (processVersioningState mst vstat) = Some del ->
  Decision.storeOptions (processVersioningState mst vstat) = None
  /\ Decision.options (processVersioningState mst vstat) =
       Options.mk (Some "") (Some true) None None None
         (if truthy (MasterState.isNull mst) then MasterState.objLocation mst else None)
  /\ (truthy (MasterState.isNull mst) = true ->
      DelOptions.versionId del = MasterState.versionId mst).
Proof.
  destruct (is_undefined (MasterState.versionId mst) || truthy (MasterState.isNull mst))
    eqn:Hm;
    destruct (vstat_cases vstat) as [-> | Hv].
  - rewrite (processVersioningState_suspended_unversioned _ Hm). simpl.
    destruct (truthy (MasterState.isNull mst)); [|discriminate].
    intro H. injection H as <-. auto.
  - rewrite (processVersioningState_enabled_unversioned _ _ Hm Hv).
    destruct (truthy (MasterState.exists_ mst)); discriminate.
  - rewrite (processVersioningState_suspended_versioned _ Hm). simpl.
    apply orb_false_iff in Hm as [_ ->].
    intros _. repeat split. discriminate.
  - rewrite (processVersioningState_enabled_versioned _ _ Hm Hv). discriminate.
Qed.

(** ** Claims on [processVersioningState] *)

(** C1.  For a master state whose [versionId] is undefined or whose [isNull]
    flag is set, [processVersioningState] with status ['Suspended'] returns
    [options] with [versionId: ''], [isNull: true] and [dataToDelete] equal
    to the master's [objLocation] (and nothing else); it returns no
    [storeOptions]; and it returns [delOptions] exactly when the master is a
    null version, carrying the master's [versionId], and [replayId] equal to
    the master's [uploadId] when the master has one (the source tests
    [if (mst.uploadId)]: an upload id that is a non-empty string). *)
Theorem processVersioningState_suspended_null_or_unversioned
  (mst : MasterState.t Loc) :
  MasterState.versionId mst = None \/ truthy (MasterState.isNull mst) = true ->
  let d := processVersioningState mst (Some "Suspended") in
  Decision.options d =
    Options.mk (Some "") (Some true) None None None (MasterState.objLocation mst)
  /\ Decision.storeOptions d = None
  /\ (truthy (MasterState.isNull mst) = true ->
      Decision.delOptions d =
        Some (DelOptions.mk (MasterState.versionId mst)
                (if truthy (MasterState.uploadId mst)
                 then MasterState.uploadId mst else None)))
  /\ (truthy (MasterState.isNull mst) = false -> Decision.delOptions d = None).
Proof.
  intros H d.
  assert (Hm : is_undefined (MasterState.versionId mst)
               || truthy (MasterState.isNull mst) = true).
  { apply orb_true_iff. destruct H as [H | H]; [left | now right].
    now apply is_undefined_true. }
  subst d. rewrite (processVersioningState_suspended_unversioned _ Hm). simpl.
  repeat split; intros ->; reflexivity.
Qed.

(** C2.  For a master state whose [versionId] is undefined or whose [isNull]
    flag is set, [processVersioningState] with status ['Enabled'] returns
    [options] with [versioning: true] and no [delOptions].  When the master
    exists it returns [storeOptions] with [isNull: true] and [versionId] the
    master's own version id if the master is a null version and the reserved
    identifier [nonVersionedObjId] otherwise; [options.nullVersionId] is that
    same identifier; [options.nullUploadId] is the master's [uploadId] when
    the master is a null version that has one, and is not set otherwise.
    When no master exists there is no [storeOptions], and [options] holds
    [versioning] only. *)
Theorem processVersioningState_enabled_null_or_unversioned
  (mst : MasterState.t Loc) :
  MasterState.versionId mst = None \/ truthy (MasterState.isNull mst) = true ->
  let d := processVersioningState mst (Some "Enabled") in
  let versionId :=
    if truthy (MasterState.isNull mst)
    then MasterState.versionId mst else Some nonVersionedObjId in
  Options.versioning (Decision.options d) = Some true
  /\ Decision.delOptions d = None
  /\ (truthy (MasterState.exists_ mst) = true ->
      Decision.storeOptions d = Some (StoreOptions.mk versionId (Some true))
      /\ Decision.options d =
           Options.mk None None (Some true) versionId
             (if truthy (MasterState.isNull mst) && truthy (MasterState.uploadId mst)
              then MasterState.uploadId mst else None)
             None)
  /\ (truthy (MasterState.exists_ mst) = false ->
      Decision.storeOptions d = None
      /\ Decision.options d = Options.mk None None (Some true) None None None)
  /\ (Options.nullUploadId (Decision.options d) <> None ->
      truthy (MasterState.isNull mst) = true).
Proof.
  intros H d versionId.
  assert (Hm : is_undefined (MasterState.versionId mst)
               || truthy (MasterState.isNull mst) = true).
  { apply orb_true_iff. destruct H as [H | H]; [left | now right].
    now apply is_undefined_true. }
  subst d versionId.
  rewrite (processVersioningState_enabled_unversioned mst (Some "Enabled") Hm eq_refl).
  destruct (truthy (MasterState.exists_ mst)); simpl.
  - repeat split; try discriminate.
    destruct (truthy (MasterState.isNull mst)); simpl; congruence.
  - repeat split; try discriminate. congruence.
Qed.

(** C9.  For every master state and every bucket versioning status, the
    result of [processVersioningState] has at most one of [storeOptions] and
    [delOptions]. *)
Theorem processVersioningState_store_or_delete_not_both
  (mst : MasterState.t Loc) (vstat : option string) :
  Decision.storeOptions (processVersioningState mst vstat) = None
  \/ Decision.delOptions (processVersioningState mst vstat) = None.
Proof.
  destruct (Decision.delOptions (processVersioningState mst vstat)) as [del|] eqn:E.
  - left. now apply processVersioningState_delOptions in E.
  - now right.
Qed.

(** ** [getMasterState] *)

(** C7.  [getMasterState] returns the object with every field undefined
    when no record is supplied.  Otherwise [exists] is [true], the
    identifier fields are those of the record, and [objLocation] is the
    one-element array of the record's location when that is a single
    location, the record's array unchanged when it is an array, and is not
    set when the record has no location. *)
Theorem getMasterState_normalizes_location :
  getMasterState (Loc := Loc) None
    = MasterState.mk None None None None None None None
  /\ forall objMD : ObjectMD.t Loc,
      let mst := getMasterState (Some objMD) in
      MasterState.exists_ mst = Some true
      /\ MasterState.versionId mst = ObjectMD.versionId objMD
      /\ MasterState.uploadId mst = ObjectMD.uploadId objMD
      /\ MasterState.isNull mst = ObjectMD.isNull objMD
      /\ MasterState.nullVersionId mst = ObjectMD.nullVersionId objMD
      /\ MasterState.nullUploadId mst = ObjectMD.nullUploadId objMD
      /\ (forall l, ObjectMD.location objMD = LocObject l ->
          MasterState.objLocation mst = Some [l])
      /\ (forall ls, ObjectMD.location objMD = LocArray ls ->
          MasterState.objLocation mst = Some ls)
      /\ (truthy (ObjectMD.location objMD) = false ->
          MasterState.objLocation mst = None).
Proof.
  split; [reflexivity|].
  intros objMD mst. subst mst. unfold getMasterState.
  destruct (ObjectMD.location objMD) as [| |l|ls] eqn:E;
    cbv [truthy truthy_location]; simpl;
    repeat split; intros; congruence.
Qed.

(** ** [preprocessingVersioningDelete] *)

(** C6.  For an object record that has a defined [versionId], is not a null
    version and has no [nullVersionId] (none, or an empty one, which the
    source treats alike), [preprocessingVersioningDelete] on a bucket with a
    versioning configuration and the requested version id ['null'] calls
    back with the [NoSuchKey] error and no options. *)
Theorem preprocessingVersioningDelete_no_null_version
  (bucketName : string) (bucketMD : BucketMD.t) (objectMD : ObjectMD.t Loc) :
  BucketMD.getVersioningConfiguration bucketMD <> None ->
  ObjectMD.versionId objectMD <> None ->
  truthy (ObjectMD.isNull objectMD) = false ->
  truthy (ObjectMD.nullVersionId objectMD) = false ->
  preprocessingVersioningDelete bucketName bucketMD objectMD (Some "null")
    = (Some errors.NoSuchKey, None)
  /\ ArsenalError.is_NoSuchKey errors.NoSuchKey = true.
Proof.
  intros Hcfg Hvid Hnull Hnv. split; [|reflexivity].
  unfold preprocessingVersioningDelete.
  destruct (BucketMD.getVersioningConfiguration bucketMD); [|congruence].
  destruct (ObjectMD.versionId objectMD); [|congruence].
  simpl. rewrite Hnull, Hnv. reflexivity.
Qed.

(** ** [decodeVID] and [decodeVersionId] *)

(** C10.  [decodeVID] applied to ['null'] returns the string ['null'], not an
    error, and leaves the world as it is: the codec is not called, whatever
    the codec would do.  [decodeVersionId] returns [undefined], and calls
    nothing, when the request query is absent or has no [versionId]. *)
Theorem decodeVID_null_decodeVersionId_absent :
  (forall w : World Loc, decodeVID "null" w = (inr "null", w))
  /\ (forall w : World Loc, decodeVersionId None w = (None, w))
  /\ (forall (q : Query.t) (w : World Loc),
       Query.versionId q = None ->
       decodeVersionId (Some q) w = (None, w)).
Proof.
  repeat split.
  intros q w Hq. unfold decodeVersionId. rewrite Hq. reflexivity.
Qed.

(** ** [overwritingVersioning] *)

(** C8 (as the code has it).  For an object record whose
    [archive.restoreRequestedDays] is present, [overwritingVersioning] sets
    [restoreCompletedAt] to the date of [now] and [restoreWillExpireAt] to
    the date of exactly [now + restoreRequestedDays * 86400000]
    milliseconds (a valid date with that time value whenever the sum is in
    the range of time values), and returns the options made of the record's
    [isNull] and [nullVersionId] and of the record's [versionId] when that
    is a non-empty string, [undefined] otherwise. *)
Theorem overwritingVersioning_restore_window
  (objMD : ObjectMD.t Loc) (metadataStoreParams : MetadataStoreParams.t)
  (now : Z) (a : Archive.t) (days : Z) :
  ObjectMD.archive objMD = Some a ->
  Archive.restoreRequestedDays a = Some days ->
  let r := overwritingVersioning objMD metadataStoreParams now in
  (exists ar,
      MetadataStoreParams.archive (fst r) = Some ar
      /\ ArchiveParams.restoreCompletedAt ar = JSDate.new (Some now)
      /\ ArchiveParams.restoreWillExpireAt ar
         = JSDate.new (Some (now + days * 86400000)%Z)
      /\ (JSDate.in_range (now + days * 86400000) = true ->
          ArchiveParams.restoreWillExpireAt ar
          = JSDate.Valid (now + days * 86400000)))
  /\ snd r =
       OverwriteOptions.mk
         (if truthy (ObjectMD.versionId objMD) then ObjectMD.versionId objMD else None)
         (ObjectMD.isNull objMD)
         (ObjectMD.nullVersionId objMD).
Proof.
  intros Ha Hd r. subst r. unfold overwritingVersioning. rewrite Ha, Hd. simpl.
  split; [|reflexivity].
  eexists. split; [reflexivity|]. simpl. rewrite oneDay_ms.
  repeat split. intros ->. reflexivity.
Qed.

(** ** The store/delete pipeline of [versioningPreprocessing] *)

(** The series of [versioningPreprocessing] when the decision asks for a
    delete: the store task does nothing and the outcome is decided by
    [_deleteNullVersionMD]. *)
Lemma versioningPreprocessing_delete_step
  (bucketName : string) (bucketMD : BucketMD.t) (objectKey : string)
  (objMD : option (ObjectMD.t Loc)) (vCfg : VersioningConfiguration.t)
  (del : DelOptions.t) (w : World Loc) :
  BucketMD.getVersioningConfiguration bucketMD = Some vCfg ->
  Decision.delOptions
    (processVersioningState (getMasterState objMD)
       (VersioningConfiguration.Status vCfg)) = Some del ->
  versioningPreprocessing bucketName bucketMD objectKey objMD w =
    let options :=
      Decision.options
        (processVersioningState (getMasterState objMD)
           (VersioningConfiguration.Status vCfg)) in
    let (r, w') :=
      _deleteNullVersionMD bucketName objectKey del (getMasterState objMD) w in
    match r with
    | inl err =>
        ((if ArsenalError.is_NoSuchKey err then None else Some errors.InternalError,
          options), w')
    | inr nullDataToDelete =>
        ((None, Options.set_dataToDelete nullDataToDelete options), w')
    end.
Proof.
  intros Hcfg Hdel.
  destruct (processVersioningState_delOptions _ _ Hdel) as (Hstore & _ & _).
  unfold versioningPreprocessing. rewrite Hcfg. simpl.
  unfold storeVersion at 1. rewrite Hstore.
  unfold deleteNullVersion, bind, ret. rewrite Hdel.
  destruct (_deleteNullVersionMD bucketName objectKey del (getMasterState objMD) w)
    as [[err | nullDataToDelete] w'].
  - destruct (ArsenalError.is_NoSuchKey err); reflexivity.
  - reflexivity.
Qed.

(** C3 (as the code has it).  In [versioningPreprocessing], when
    [delOptions] is present and the null-version cleanup fails with a
    [NoSuchKey] error, the callback receives no error and the [options]
    exactly as [processVersioningState] decided them: nothing from the
    cleanup is merged.  Their [dataToDelete] is unset when the master is not
    a null version, and is still the master's [objLocation] when the master
    itself is the null version.  Any other failure of the cleanup is
    reported as [InternalError]. *)
Theorem versioningPreprocessing_cleanup_failure
  (bucketName : string) (bucketMD : BucketMD.t) (objectKey : string)
  (objMD : option (ObjectMD.t Loc)) (vCfg : VersioningConfiguration.t)
  (del : DelOptions.t) (err : ArsenalError.t) (w w' : World Loc) :
  BucketMD.getVersioningConfiguration bucketMD = Some vCfg ->
  let mst := getMasterState objMD in
  let d := processVersioningState mst (VersioningConfiguration.Status vCfg) in
  Decision.delOptions d = Some del ->
  _deleteNullVersionMD bucketName objectKey del mst w = (inl err, w') ->
  versioningPreprocessing bucketName bucketMD objectKey objMD w =
    ((if ArsenalError.is_NoSuchKey err then None else Some errors.InternalError,
      Decision.options d), w')
  /\ Decision.options d =
       Options.mk (Some "") (Some true) None None None
         (if truthy (MasterState.isNull mst) then MasterState.objLocation mst else None).
Proof.
  intros Hcfg mst d Hdel Hfail. subst mst d. split.
  - rewrite (versioningPreprocessing_delete_step _ _ _ _ w Hcfg Hdel).
    simpl. rewrite Hfail. reflexivity.
  - now destruct (processVersioningState_delOptions _ _ Hdel) as (_ & Hopt & _).
Qed.

(** C4.  In [versioningPreprocessing], if [storeOptions] is present and
    storing the retiring master as a null version fails, the callback
    receives that very error; the only call made to a collaborator is the
    failed [putObjectMD] (no read and no delete of a null version follows),
    the backend is left as that call left it, and [options] is as decided. *)
Theorem versioningPreprocessing_store_failure
  (bucketName : string) (bucketMD : BucketMD.t) (objectKey : string)
  (objMD : option (ObjectMD.t Loc)) (vCfg : VersioningConfiguration.t)
  (storeOptions : StoreOptions.t) (err : ArsenalError.t)
  (w : World Loc) (s' : Store) :
  BucketMD.getVersioningConfiguration bucketMD = Some vCfg ->
  let d :=
    processVersioningState (getMasterState objMD)
      (VersioningConfiguration.Status vCfg) in
  let versionMD := assign_storeOptions objMD storeOptions in
  let params := PutParams.mk (StoreOptions.versionId storeOptions) in
  Decision.storeOptions d = Some storeOptions ->
  metadata_putObjectMD bucketName objectKey versionMD params (store w)
    = (Some err, s') ->
  versioningPreprocessing bucketName bucketMD objectKey objMD w =
    ((Some err, Decision.options d),
     mkWorld s' (calls w ++ [CallPutObjectMD bucketName objectKey versionMD params])).
Proof.
  intros Hcfg d versionMD params Hstore Hput. subst d versionMD params.
  unfold versioningPreprocessing. rewrite Hcfg. simpl.
  unfold storeVersion at 1. rewrite Hstore.
  unfold _storeNullVersionMD, putObjectMD, bind, ret. rewrite Hput. reflexivity.
Qed.

(** C5.  In [versioningPreprocessing], when [delOptions] is present and the
    null-version cleanup succeeds, the callback receives no error and
    [options] with [dataToDelete] set to the locations the cleanup found,
    and a [dataToDelete] that [options] already had is still there.  When
    the record of the targeted version has no location, the read reports no
    error and no data, and with a successful delete the operation ends
    without error and without data to delete.  When [delOptions.versionId]
    equals the master's [versionId], the master's [objLocation] is the data
    to delete and no collaborator is called to find it. *)
Theorem versioningPreprocessing_cleanup_success
  (bucketName : string) (bucketMD : BucketMD.t) (objectKey : string)
  (objMD : option (ObjectMD.t Loc)) (vCfg : VersioningConfiguration.t)
  (del : DelOptions.t) :
  BucketMD.getVersioningConfiguration bucketMD = Some vCfg ->
  let mst := getMasterState objMD in
  let d := processVersioningState mst (VersioningConfiguration.Status vCfg) in
  Decision.delOptions d = Some del ->
  (forall (w w' : World Loc) (nullDataToDelete : option (list Loc)),
      _deleteNullVersionMD bucketName objectKey del mst w
        = (inr nullDataToDelete, w') ->
      versioningPreprocessing bucketName bucketMD objectKey objMD w =
        ((None, Options.set_dataToDelete nullDataToDelete (Decision.options d)), w')
      /\ forall ls, Options.dataToDelete (Decision.options d) = Some ls ->
                    nullDataToDelete = Some ls)
  /\ (forall (w : World Loc) (versionMD : ObjectMD.t Loc) (s1 s2 : Store),
        DelOptions.versionId del <> MasterState.versionId mst ->
        metadata_getObjectMD bucketName objectKey del (store w) = (inr versionMD, s1) ->
        truthy (ObjectMD.location versionMD) = false ->
        _getNullVersionsToDelete bucketName objectKey del mst w =
          (inr None,
           mkWorld s1 (calls w ++ [CallGetObjectMD bucketName objectKey del]))
        /\ (metadata_deleteObjectMD bucketName objectKey del s1 = (None, s2) ->
            versioningPreprocessing bucketName bucketMD objectKey objMD w =
              ((None, Options.set_dataToDelete None (Decision.options d)),
               mkWorld s2
                 (calls w ++ [CallGetObjectMD bucketName objectKey del;
                              CallDeleteObjectMD bucketName objectKey del]))))
  /\ (forall w : World Loc,
        DelOptions.versionId del = MasterState.versionId mst ->
        _getNullVersionsToDelete bucketName objectKey del mst w =
          (inr (MasterState.objLocation mst), w)).
Proof.
  intros Hcfg mst d Hdel. subst mst d.
  set (mst := getMasterState objMD) in *.
  destruct (processVersioningState_delOptions _ _ Hdel) as (_ & Hopt & Hvid).
  assert (Hsame : forall w, DelOptions.versionId del = MasterState.versionId mst ->
            _getNullVersionsToDelete bucketName objectKey del mst w
            = (inr (MasterState.objLocation mst), w)).
  { intros w E. unfold _getNullVersionsToDelete. rewrite E, strict_eq_refl.
    reflexivity. }
  assert (Hread : forall w versionMD s1,
            DelOptions.versionId del <> MasterState.versionId mst ->
            metadata_getObjectMD bucketName objectKey del (store w) = (inr versionMD, s1) ->
            truthy (ObjectMD.location versionMD) = false ->
            _getNullVersionsToDelete bucketName objectKey del mst w =
              (inr None,
               mkWorld s1 (calls w ++ [CallGetObjectMD bucketName objectKey del]))).
  { intros w versionMD s1 Hne Hget Hloc. unfold _getNullVersionsToDelete.
    destruct (strict_eq (DelOptions.versionId del) (MasterState.versionId mst)) eqn:E.
    - apply strict_eq_true in E. contradiction.
    - unfold getObjectMD, bind, ret. rewrite Hget, Hloc. reflexivity. }
  split; [|split].
  - intros w w' nullDataToDelete Hok. split.
    + rewrite (versioningPreprocessing_delete_step _ _ _ _ w Hcfg Hdel).
      simpl. fold mst. rewrite Hok. reflexivity.
    + intros ls. rewrite Hopt. simpl.
      destruct (truthy (MasterState.isNull mst)) eqn:Hnull; [|discriminate].
      intro Hls. unfold _deleteNullVersionMD, bind in Hok.
      rewrite (Hsame w (Hvid eq_refl)) in Hok.
      unfold deleteObjectMD, ret in Hok.
      destruct (metadata_deleteObjectMD bucketName objectKey del (store w))
        as [[e|] s]; [discriminate|].
      injection Hok as Hnd _. congruence.
  - intros w versionMD s1 s2 Hne Hget Hloc. split; [now apply (Hread w versionMD)|].
    intro Hdelete.
    rewrite (versioningPreprocessing_delete_step _ _ _ _ w Hcfg Hdel).
    simpl. fold mst. unfold _deleteNullVersionMD, bind.
    rewrite (Hread w versionMD s1 Hne Hget Hloc).
    unfold deleteObjectMD, ret. simpl. rewrite Hdelete.
    rewrite <- app_assoc. reflexivity.
  - exact Hsame.
Qed.

End Properties.

(* ================================================================== *)
(** * The decision functions and the pipeline on explicit inputs *)

(** A null-version master ["V1"] created by upload ["U1"], bucket
    suspended: the delete targets ["V1"] with replay id ["U1"]. *)
Lemma processVersioningState_suspended_null_or_unversioned_witness :
  truthy (Some true) = true
  /\ Decision.delOptions
       (processVersioningState (C := MemBackend.collaborators)
          (MasterState.mk (Some true) (Some "V1") (Some "U1") (Some true) None None
             (Some [7]))
          (Some "Suspended"))
     = Some (DelOptions.mk (Some "V1") (Some "U1")).
Proof.
  split; [reflexivity|].
  refine (proj1 (proj2 (proj2
    (@processVersioningState_suspended_null_or_unversioned nat MemBackend.collaborators
       (MasterState.mk (Some true) (Some "V1") (Some "U1") (Some true) None None
          (Some [7]))
       (or_intror eq_refl)))) eq_refl).
Defined.

(** An object written before versioning was configured, bucket enabled:
    the master is stored under the reserved identifier. *)
Lemma processVersioningState_enabled_null_or_unversioned_witness :
  MasterState.versionId
    (getMasterState (Some (MemBackend.record None None None None None (LocArray [7])))) = None
  /\ Decision.storeOptions
       (processVersioningState (C := MemBackend.collaborators)
          (getMasterState (Some (MemBackend.record None None None None None (LocArray [7]))))
          (Some "Enabled"))
     = Some (StoreOptions.mk (Some MemBackend.infVid) (Some true))
  /\ Decision.options
       (processVersioningState (C := MemBackend.collaborators)
          (getMasterState (Some (MemBackend.record None None None None None (LocArray [7]))))
          (Some "Enabled"))
     = Options.mk None None (Some true) (Some MemBackend.infVid) None None.
Proof.
  split; [reflexivity|].
  exact (proj1 (proj2 (proj2
    (@processVersioningState_enabled_null_or_unversioned nat MemBackend.collaborators
       (getMasterState (Some (MemBackend.record None None None None None (LocArray [7]))))
       (or_introl eq_refl)))) eq_refl).
Defined.

(** A plain versioned master without null version, delete of ['null']. *)
Lemma preprocessingVersioningDelete_no_null_version_witness :
  preprocessingVersioningDelete "bucket" MemBackend.enabled
    (MemBackend.record (Some "V2") None None None None (LocArray [7])) (Some "null")
  = (Some errors.NoSuchKey, None).
Proof.
  refine (proj1
    (@preprocessingVersioningDelete_no_null_version nat "bucket" MemBackend.enabled
       (MemBackend.record (Some "V2") None None None None (LocArray [7])) _ _ eq_refl eq_refl));
    discriminate.
Defined.

(** A record with a single location. *)
Lemma getMasterState_normalizes_location_witness :
  MasterState.objLocation
    (getMasterState (Some (MemBackend.record (Some "V2") None None None None (LocObject 7))))
  = Some [7].
Proof.
  exact (proj1 (proj2 (proj2 (proj2 (proj2 (proj2 (proj2
    (proj2 (@getMasterState_normalizes_location nat)
       (MemBackend.record (Some "V2") None None None None (LocObject 7)))))))))
    7 eq_refl).
Defined.

(** A query without version id, with a codec that would be logged if called. *)
Lemma decodeVID_null_decodeVersionId_absent_witness :
  decodeVersionId (C := MemBackend.collaborators) (Some (Query.mk None)) (MemBackend.world [] false)
  = (None, MemBackend.world [] false).
Proof.
  exact (proj2 (proj2 (@decodeVID_null_decodeVersionId_absent nat MemBackend.collaborators))
           (Query.mk None) (MemBackend.world [] false) eq_refl).
Defined.


(** The race on the cleanup: a versioned master ["V2"] refers to the null
    version ["V1"], whose record is already gone from the backend. *)
Lemma versioningPreprocessing_cleanup_failure_witness :
  _deleteNullVersionMD (C := MemBackend.collaborators) "bucket" "key"
    (DelOptions.mk (Some "V1") None)
    (getMasterState
       (Some (MemBackend.record (Some "V2") None None (Some "V1") None (LocArray [7]))))
    (MemBackend.world [] false)
  = (inl errors.NoSuchKey,
     mkWorld (C := MemBackend.collaborators) (MemBackend.mk [] false)
       [CallGetObjectMD "bucket" "key" (DelOptions.mk (Some "V1") None)])
  /\ versioningPreprocessing (C := MemBackend.collaborators) "bucket" MemBackend.suspended "key"
       (Some (MemBackend.record (Some "V2") None None (Some "V1") None (LocArray [7])))
       (MemBackend.world [] false)
     = ((None, Options.mk (Some "") (Some true) None None None None),
        mkWorld (C := MemBackend.collaborators) (MemBackend.mk [] false)
          [CallGetObjectMD "bucket" "key" (DelOptions.mk (Some "V1") None)]).
Proof.
  split; [reflexivity|].
  exact (proj1
    (@versioningPreprocessing_cleanup_failure nat MemBackend.collaborators
       "bucket" MemBackend.suspended "key"
       (Some (MemBackend.record (Some "V2") None None (Some "V1") None (LocArray [7])))
       (VersioningConfiguration.mk (Some "Suspended"))
       (DelOptions.mk (Some "V1") None)
       errors.NoSuchKey
       (MemBackend.world [] false)
       (mkWorld (C := MemBackend.collaborators) (MemBackend.mk [] false)
          [CallGetObjectMD "bucket" "key" (DelOptions.mk (Some "V1") None)])
       eq_refl eq_refl eq_refl)).
Defined.

(** C3, as stated, fails when the master itself is the null version: the
    master ["V1"] is a null version with data at location 7, the bucket is
    suspended, and the record of ["V1"] is already gone.  The delete fails
    with [NoSuchKey], the callback receives no error, and the options still
    hold the master's data in [dataToDelete]. *)
Lemma versioningPreprocessing_absorbed_failure_keeps_dataToDelete :
  Decision.delOptions
    (processVersioningState (C := MemBackend.collaborators)
       (getMasterState
          (Some (MemBackend.record (Some "V1") None (Some true) None None (LocArray [7]))))
       (Some "Suspended"))
  = Some (DelOptions.mk (Some "V1") None)
  /\ fst (_deleteNullVersionMD (C := MemBackend.collaborators) "bucket" "key"
            (DelOptions.mk (Some "V1") None)
            (getMasterState
               (Some (MemBackend.record (Some "V1") None (Some true) None None (LocArray [7]))))
            (MemBackend.world [] false))
     = inl errors.NoSuchKey
  /\ fst (versioningPreprocessing (C := MemBackend.collaborators) "bucket" MemBackend.suspended "key"
            (Some (MemBackend.record (Some "V1") None (Some true) None None (LocArray [7])))
            (MemBackend.world [] false))
     = (None, Options.mk (Some "") (Some true) None None None (Some [7]))
  /\ Options.dataToDelete
       (snd (fst (versioningPreprocessing (C := MemBackend.collaborators) "bucket" MemBackend.suspended "key"
                    (Some (MemBackend.record (Some "V1") None (Some true) None None (LocArray [7])))
                    (MemBackend.world [] false))))
     <> None.
Proof.
  repeat split. discriminate.
Qed.

(** A read-only backend: the store of the retiring master fails. *)
Lemma versioningPreprocessing_store_failure_witness :
  versioningPreprocessing (C := MemBackend.collaborators) "bucket" MemBackend.enabled "key"
    (Some (MemBackend.record None None None None None (LocArray [7])))
    (MemBackend.world [] true)
  = ((Some (ArsenalError.mk "ServiceUnavailable" None),
      Options.mk None None (Some true) (Some MemBackend.infVid) None None),
     mkWorld (C := MemBackend.collaborators) (MemBackend.mk [] true)
       [CallPutObjectMD "bucket" "key"
          (MemBackend.record (Some MemBackend.infVid) None (Some true) None None (LocArray [7]))
          (PutParams.mk (Some MemBackend.infVid))]).
Proof.
  exact (@versioningPreprocessing_store_failure nat MemBackend.collaborators
           "bucket" MemBackend.enabled "key"
           (Some (MemBackend.record None None None None None (LocArray [7])))
           (VersioningConfiguration.mk (Some "Enabled"))
           (StoreOptions.mk (Some MemBackend.infVid) (Some true))
           (ArsenalError.mk "ServiceUnavailable" None)
           (MemBackend.world [] true) (MemBackend.mk [] true)
           eq_refl eq_refl eq_refl).
Defined.

(** The cleanup succeeds.  A versioned master ["V2"] refers to the null
    version ["V1"]: with the record of ["V1"] at location 3 the options get
    that location; with a record of ["V1"] whose location is [null] they get
    none.  A null-version master ["V1"] is its own target: its location is
    reused and nothing is read. *)
Lemma versioningPreprocessing_cleanup_success_witness :
  versioningPreprocessing (C := MemBackend.collaborators) "bucket" MemBackend.suspended "key"
    (Some (MemBackend.record (Some "V2") None None (Some "V1") None (LocArray [7])))
    (MemBackend.world [(Some "V1", MemBackend.record (Some "V1") None (Some true) None None (LocObject 3))]
       false)
  = ((None, Options.mk (Some "") (Some true) None None None (Some [3])),
     mkWorld (C := MemBackend.collaborators) (MemBackend.mk [] false)
       [CallGetObjectMD "bucket" "key" (DelOptions.mk (Some "V1") None);
        CallDeleteObjectMD "bucket" "key" (DelOptions.mk (Some "V1") None)])
  /\ versioningPreprocessing (C := MemBackend.collaborators) "bucket" MemBackend.suspended "key"
       (Some (MemBackend.record (Some "V2") None None (Some "V1") None (LocArray [7])))
       (MemBackend.world [(Some "V1", MemBackend.record (Some "V1") None (Some true) None None LocNull)]
          false)
     = ((None, Options.mk (Some "") (Some true) None None None None),
        mkWorld (C := MemBackend.collaborators) (MemBackend.mk [] false)
          [CallGetObjectMD "bucket" "key" (DelOptions.mk (Some "V1") None);
           CallDeleteObjectMD "bucket" "key" (DelOptions.mk (Some "V1") None)])
  /\ _getNullVersionsToDelete (C := MemBackend.collaborators) "bucket" "key"
       (DelOptions.mk (Some "V1") None)
       (getMasterState
          (Some (MemBackend.record (Some "V1") None (Some true) None None (LocArray [7]))))
       (MemBackend.world [] false)
     = (inr (Some [7]), MemBackend.world [] false).
Proof.
  pose proof
    (@versioningPreprocessing_cleanup_success nat MemBackend.collaborators
       "bucket" MemBackend.suspended "key"
       (Some (MemBackend.record (Some "V2") None None (Some "V1") None (LocArray [7])))
       (VersioningConfiguration.mk (Some "Suspended"))
       (DelOptions.mk (Some "V1") None) eq_refl eq_refl) as HB.
  pose proof
    (@versioningPreprocessing_cleanup_success nat MemBackend.collaborators
       "bucket" MemBackend.suspended "key"
       (Some (MemBackend.record (Some "V1") None (Some true) None None (LocArray [7])))
       (VersioningConfiguration.mk (Some "Suspended"))
       (DelOptions.mk (Some "V1") None) eq_refl eq_refl) as HA.
  split; [|split].
  - exact (proj1 (proj1 HB
      (MemBackend.world [(Some "V1", MemBackend.record (Some "V1") None (Some true) None None (LocObject 3))]
         false)
      (mkWorld (C := MemBackend.collaborators) (MemBackend.mk [] false)
         [CallGetObjectMD "bucket" "key" (DelOptions.mk (Some "V1") None);
          CallDeleteObjectMD "bucket" "key" (DelOptions.mk (Some "V1") None)])
      (Some [3]) eq_refl)).
  - refine (proj2 (proj1 (proj2 HB)
      (MemBackend.world [(Some "V1", MemBackend.record (Some "V1") None (Some true) None None LocNull)] false)
      (MemBackend.record (Some "V1") None (Some true) None None LocNull)
      (MemBackend.mk [(Some "V1", MemBackend.record (Some "V1") None (Some true) None None LocNull)] false)
      (MemBackend.mk [] false) _ eq_refl eq_refl) eq_refl).
    discriminate.
  - exact (proj2 (proj2 HA) (MemBackend.world [] false) eq_refl).
Defined.

(** A restore of three days completed at time 1700000000000. *)
Lemma overwritingVersioning_restore_window_witness :
  exists ar,
    MetadataStoreParams.archive
      (fst (overwritingVersioning
              (ObjectMD.mk (Some "V2") None None None None (LocArray [7]) None None
                 (Some (Archive.mk None None (Some 3%Z))))
              (MetadataStoreParams.mk None None None None [])
              1700000000000))
    = Some ar
    /\ ArchiveParams.restoreCompletedAt ar = JSDate.Valid 1700000000000
    /\ ArchiveParams.restoreWillExpireAt ar = JSDate.Valid 1700259200000.
Proof.
  destruct
    (@overwritingVersioning_restore_window nat
       (ObjectMD.mk (Some "V2") None None None None (LocArray [7]) None None
          (Some (Archive.mk None None (Some 3%Z))))
       (MetadataStoreParams.mk None None None None [])
       1700000000000 (Archive.mk None None (Some 3%Z)) 3 eq_refl eq_refl)
    as [[ar (Har & Hdone & _ & Hexp)] _].
  exists ar. split; [exact Har|]. split; [exact Hdone | exact (Hexp eq_refl)].
Defined.

(** C8, as stated, fails for a record whose [versionId] is the empty
    string: [objMD.versionId || undefined] is [undefined], not the record's
    [versionId]. *)
Lemma overwritingVersioning_empty_versionId :
  ObjectMD.versionId
    (ObjectMD.mk (Some "") None None None None (LocArray [7]) None None
       (Some (Archive.mk None None (Some 3%Z))))
  = Some ""
  /\ OverwriteOptions.versionId
       (snd (overwritingVersioning
               (ObjectMD.mk (Some "") None None None None (LocArray [7]) None None
                  (Some (Archive.mk None None (Some 3%Z))))
               (MetadataStoreParams.mk None None None None [])
               1700000000000))
     = None
  /\ OverwriteOptions.versionId
       (snd (overwritingVersioning
               (ObjectMD.mk (Some "") None None None None (LocArray [7]) None None
                  (Some (Archive.mk None None (Some 3%Z))))
               (MetadataStoreParams.mk None None None None [])
               1700000000000))
     <> ObjectMD.versionId
          (ObjectMD.mk (Some "") None None None None (LocArray [7]) None None
             (Some (Archive.mk None None (Some 3%Z)))).
Proof.
  repeat split. discriminate.
Qed.

(* ================================================================== *)
(** * Further properties of versioning.js *)

Section VersionIdProperties.
Context {Loc : Type} {C : Collaborators Loc}.

(** X1.  On an identifier other than ['null'], [decodeVID] calls the codec
    exactly once, on that identifier, and does not touch the backend; it
    returns the decoded identifier when the codec returns one, and the
    [InvalidArgument] error with the description 'Invalid version id
    specified' both when the codec throws and when it returns an error. *)
Theorem decodeVID_calls_codec_once (versionId : string) (w : World Loc) :
  versionId <> "null" ->
  decodeVID versionId w =
    (match versionIdUtils_decode versionId with
     | DecodeReturns decoded => inr decoded
     | DecodeThrows | DecodeReturnsError =>
         inl (ArsenalError.mk "InvalidArgument" (Some "Invalid version id specified"))
     end,
     mkWorld (store w) (calls w ++ [CallDecode versionId])).
Proof.
  intro Hne. unfold decodeVID.
  destruct (String.eqb versionId "null") eqn:E.
  - apply String.eqb_eq in E. contradiction.
  - unfold bind, decode, ret.
    destruct (versionIdUtils_decode versionId); reflexivity.
Qed.

(** The world after [decodeVersionId], and the only error it returns. *)
Lemma decodeVersionId_cases (reqQuery : option Query.t) (w : World Loc) :
  decodeVersionId reqQuery w = (None, w)
  \/ exists q v,
      reqQuery = Some q /\ Query.versionId q = Some v /\ v <> ""
      /\ ((v = "null" /\ decodeVersionId reqQuery w = (Some (inr "null"), w))
          \/ (v <> "null"
              /\ decodeVersionId reqQuery w =
                   (Some match versionIdUtils_decode v with
                         | DecodeReturns decoded => inr decoded
                         | DecodeThrows | DecodeReturnsError =>
                             inl (ArsenalError.mk "InvalidArgument"
                                    (Some "Invalid version id specified"))
                         end,
                    mkWorld (store w) (calls w ++ [CallDecode v])))).
Proof.
  destruct reqQuery as [[[v|]]|]; try (left; reflexivity).
  destruct (String.eqb v "") eqn:Ev.
  - left. unfold decodeVersionId. cbv [truthy truthy_string]. simpl.
    rewrite Ev. reflexivity.
  - right. exists (Query.mk (Some v)), v.
    assert (Hv : v <> "") by (intro; subst; discriminate).
    repeat split; trivial.
    unfold decodeVersionId. cbv [truthy truthy_string]. simpl. rewrite Ev. simpl.
    unfold decodeVID, bind, decode, ret.
    destruct (String.eqb v "null") eqn:En.
    + left. apply String.eqb_eq in En. subst. split; reflexivity.
    + right. split; [intro; subst; discriminate|].
      destruct (versionIdUtils_decode v); reflexivity.
Qed.

(** X2.  [decodeVersionId] leaves the metadata backend as it is and calls
    the codec at most once, on the [versionId] of the query; the only error
    it ever returns is [InvalidArgument] with the description 'Invalid
    version id specified'. *)
Theorem decodeVersionId_effects_and_errors (reqQuery : option Query.t) (w : World Loc) :
  store (snd (decodeVersionId reqQuery w)) = store w
  /\ (calls (snd (decodeVersionId reqQuery w)) = calls w
      \/ exists q v,
          reqQuery = Some q /\ Query.versionId q = Some v
          /\ calls (snd (decodeVersionId reqQuery w))
             = (calls w ++ [CallDecode v])%list)
  /\ forall err,
      fst (decodeVersionId reqQuery w) = Some (inl err) ->
      err = ArsenalError.mk "InvalidArgument" (Some "Invalid version id specified").
Proof.
  destruct (decodeVersionId_cases reqQuery w)
    as [-> | (q & v & Hq & Hv & _ & [[_ ->] | [_ ->]])]; simpl.
  - repeat split; [now left | discriminate].
  - repeat split; [now left | discriminate].
  - repeat split.
    + right. now exists q, v.
    + intros err. destruct (versionIdUtils_decode v); congruence.
Qed.

(** X3.  [checkQueryVersionId] accepts exactly the absent query and the
    queries without [versionId] property; every other query, also one whose
    [versionId] is the empty string or ['null'], is answered with the
    [InvalidArgument] error 'This operation does not accept a version-id.'
    A query that it accepts makes [decodeVersionId] return [undefined]
    without calling the codec. *)
Theorem checkQueryVersionId_accepts_iff (query : option Query.t) :
  (checkQueryVersionId query = None
   <-> query = None \/ query = Some (Query.mk None))
  /\ (checkQueryVersionId query = None
      \/ checkQueryVersionId query =
           Some (ArsenalError.mk "InvalidArgument"
                   (Some "This operation does not accept a version-id.")))
  /\ (checkQueryVersionId query = None ->
      forall w : World Loc, decodeVersionId query w = (None, w)).
Proof.
  destruct query as [[[v|]]|]; simpl; (split; [|split]);
    try (now left); try (now right); try discriminate; try reflexivity.
  - split; intro H; [discriminate|]. destruct H as [H | H]; discriminate.
  - split; auto.
  - split; auto.
Qed.

(** X4.  [getVersionIdResHeader] returns [undefined] exactly when the
    bucket has no versioning configuration.  With a configuration it
    returns ['null'], whatever the encoder, for a null version and for a
    record without (or with an empty) [versionId], and the encoded
    [versionId] of the record otherwise. *)
Theorem getVersionIdResHeader_cases (versionIdUtils_encode : string -> string)
  (verCfg : option VersioningConfiguration.t) (objectMD : ObjectMD.t Loc) :
  (getVersionIdResHeader versionIdUtils_encode verCfg objectMD = None
   <-> verCfg = None)
  /\ (verCfg <> None ->
      truthy (ObjectMD.isNull objectMD) = true
      \/ truthy (ObjectMD.versionId objectMD) = false ->
      getVersionIdResHeader versionIdUtils_encode verCfg objectMD = Some "null")
  /\ (forall v,
        verCfg <> None ->
        truthy (ObjectMD.isNull objectMD) = false ->
        ObjectMD.versionId objectMD = Some v -> v <> "" ->
        getVersionIdResHeader versionIdUtils_encode verCfg objectMD
        = Some (versionIdUtils_encode v)).
Proof.
  unfold getVersionIdResHeader. destruct verCfg as [cfg|].
  - split; [|split].
    + split; [|discriminate].
      destruct (truthy (ObjectMD.isNull objectMD)); simpl; [discriminate|].
      destruct (ObjectMD.versionId objectMD) as [v|]; simpl; [|discriminate].
      cbv [truthy truthy_string]. destruct (String.eqb v ""); discriminate.
    + intros _ [-> | ->]; [reflexivity|].
      now rewrite orb_true_r.
    + intros v _ -> -> Hv. cbv [truthy truthy_string].
      destruct (String.eqb v "") eqn:E; [|reflexivity].
      apply String.eqb_eq in E. contradiction.
  - split; [|split]; [split; trivial | congruence | congruence].
Qed.

End VersionIdProperties.

Section DecisionProperties.
Context {Loc : Type} {C : Collaborators Loc}.

(** The four branches of [processVersioningState]. *)
Ltac decision_branches mst vstat :=
  let Hm := fresh "Hm" in
  let Hv := fresh "Hv" in
  destruct (is_undefined (MasterState.versionId mst)
            || truthy (MasterState.isNull mst)) eqn:Hm;
  destruct (vstat_cases vstat) as [-> | Hv];
  [ rewrite (processVersioningState_suspended_unversioned _ Hm)
  | rewrite (processVersioningState_enabled_unversioned _ _ Hm Hv)
  | rewrite (processVersioningState_suspended_versioned _ Hm)
  | rewrite (processVersioningState_enabled_versioned _ _ Hm Hv) ].

(** X5.  With status ['Suspended'], whatever the master state, the decision
    overwrites the master in place as a null version ([versionId: ''],
    [isNull: true]), creates no version, records no null-version reference
    and stores nothing; the master's data is reclaimed exactly when the
    master has no version id or is a null version, so the data of a
    versioned master is never scheduled for deletion. *)
Theorem processVersioningState_suspended_overwrites_in_place
  (mst : MasterState.t Loc) :
  Decision.options (processVersioningState mst (Some "Suspended")) =
    Options.mk (Some "") (Some true) None None None
      (if is_undefined (MasterState.versionId mst) || truthy (MasterState.isNull mst)
       then MasterState.objLocation mst else None)
  /\ Decision.storeOptions (processVersioningState mst (Some "Suspended")) = None.
Proof.
  destruct (is_undefined (MasterState.versionId mst)
            || truthy (MasterState.isNull mst)) eqn:Hm.
  - rewrite (processVersioningState_suspended_unversioned _ Hm). now split.
  - rewrite (processVersioningState_suspended_versioned _ Hm). now split.
Qed.

(** X6.  With any status other than ['Suspended'] (['Enabled'], but also an
    undefined or unknown status), whatever the master state, the decision
    creates a new version ([versioning: true]) and never overwrites in
    place, never schedules data for deletion and never asks for the delete
    of a null version. *)
Theorem processVersioningState_not_suspended_creates_version
  (mst : MasterState.t Loc) (vstat : option string) :
  vstat <> Some "Suspended" ->
  let d := processVersioningState mst vstat in
  Options.versioning (Decision.options d) = Some true
  /\ Options.versionId (Decision.options d) = None
  /\ Options.isNull (Decision.options d) = None
  /\ Options.dataToDelete (Decision.options d) = None
  /\ Decision.delOptions d = None.
Proof.
  intros Hne d. subst d.
  decision_branches mst vstat; try contradiction.
  - destruct (truthy (MasterState.exists_ mst)); simpl; repeat split.
  - simpl. repeat split.
Qed.

(** X7.  For a versioned master that is not a null version, status
    ['Suspended']: the options are [versionId: ''] and [isNull: true] and
    nothing else, and [delOptions] is present exactly when the master has a
    [nullVersionId]; it then targets that version, with [replayId] the
    master's [nullUploadId] when that is a non-empty string. *)
Theorem processVersioningState_suspended_versioned_master
  (mst : MasterState.t Loc) :
  MasterState.versionId mst <> None ->
  truthy (MasterState.isNull mst) = false ->
  let d := processVersioningState mst (Some "Suspended") in
  Decision.options d = Options.mk (Some "") (Some true) None None None None
  /\ (MasterState.nullVersionId mst = None -> Decision.delOptions d = None)
  /\ (MasterState.nullVersionId mst <> None ->
      Decision.delOptions d =
        Some (DelOptions.mk (MasterState.nullVersionId mst)
                (if truthy (MasterState.nullUploadId mst)
                 then MasterState.nullUploadId mst else None))).
Proof.
  intros Hvid Hnull d. subst d.
  assert (Hm : is_undefined (MasterState.versionId mst)
               || truthy (MasterState.isNull mst) = false).
  { rewrite Hnull, orb_false_r.
    destruct (MasterState.versionId mst); [reflexivity | contradiction]. }
  rewrite (processVersioningState_suspended_versioned _ Hm). simpl.
  split; [reflexivity|].
  destruct (MasterState.nullVersionId mst); simpl; split; congruence.
Qed.

(** X8.  For a versioned master that is not a null version, any status
    other than ['Suspended']: a new version is created, the master's
    reference to its null version ([nullVersionId], and [nullUploadId] when
    it is a non-empty string) is carried over unchanged, and nothing is
    stored or deleted. *)
Theorem processVersioningState_enabled_versioned_master
  (mst : MasterState.t Loc) (vstat : option string) :
  MasterState.versionId mst <> None ->
  truthy (MasterState.isNull mst) = false ->
  vstat <> Some "Suspended" ->
  processVersioningState mst vstat =
    Decision.mk
      (Options.mk None None (Some true) (MasterState.nullVersionId mst)
         (if truthy (MasterState.nullUploadId mst)
          then MasterState.nullUploadId mst else None)
         None)
      None None.
Proof.
  intros Hvid Hnull Hne.
  assert (Hm : is_undefined (MasterState.versionId mst)
               || truthy (MasterState.isNull mst) = false).
  { rewrite Hnull, orb_false_r.
    destruct (MasterState.versionId mst); [reflexivity | contradiction]. }
  destruct (vstat_cases vstat) as [-> | Hv]; [contradiction|].
  apply (processVersioningState_enabled_versioned _ _ Hm Hv).
Qed.

(** X9.  Whenever the decision holds [storeOptions], the bucket is not
    suspended, the master exists and has no version id or is a null
    version; the store is that of a null version ([isNull: true]) under the
    master's own version id for a null-version master and under the
    reserved identifier otherwise; and the forthcoming write refers to the
    stored version: [options.nullVersionId] is [storeOptions.versionId]. *)
Theorem processVersioningState_storeOptions_referenced
  (mst : MasterState.t Loc) (vstat : option string) (storeOptions : StoreOptions.t) :
  Decision.storeOptions (processVersioningState mst vstat) = Some storeOptions ->
  vstat <> Some "Suspended"
  /\ truthy (MasterState.exists_ mst) = true
  /\ (MasterState.versionId mst = None \/ truthy (MasterState.isNull mst) = true)
  /\ storeOptions =
       StoreOptions.mk
         (if truthy (MasterState.isNull mst)
          then MasterState.versionId mst else Some nonVersionedObjId)
         (Some true)
  /\ Options.nullVersionId (Decision.options (processVersioningState mst vstat))
     = StoreOptions.versionId storeOptions.
Proof.
  decision_branches mst vstat; try discriminate.
  destruct (truthy (MasterState.exists_ mst)) eqn:He; [|discriminate].
  simpl. intro H. injection H as <-. simpl.
  split; [|split; [|split; [|split]]]; trivial.
  - intros ->. discriminate.
  - apply orb_true_iff in Hm as [Hm | Hm]; [left | now right].
    now apply is_undefined_true.
Qed.

(** X10.  Whenever the decision holds [delOptions], the bucket is
    suspended and the delete targets the one null version of the object:
    the master itself (with [replayId] from [uploadId]) when the master is
    a null version, and otherwise the version the master refers to by
    [nullVersionId], which is then defined (with [replayId] from
    [nullUploadId]). *)
Theorem processVersioningState_delOptions_target
  (mst : MasterState.t Loc) (vstat : option string) (delOptions : DelOptions.t) :
  Decision.delOptions (processVersioningState mst vstat) = Some delOptions ->
  vstat = Some "Suspended"
  /\ (truthy (MasterState.isNull mst) = true ->
      delOptions =
        DelOptions.mk (MasterState.versionId mst)
          (if truthy (MasterState.uploadId mst)
           then MasterState.uploadId mst else None))
  /\ (truthy (MasterState.isNull mst) = false ->
      MasterState.nullVersionId mst <> None
      /\ delOptions =
           DelOptions.mk (MasterState.nullVersionId mst)
             (if truthy (MasterState.nullUploadId mst)
              then MasterState.nullUploadId mst else None)).
Proof.
  decision_branches mst vstat; try discriminate.
  - destruct (truthy (MasterState.isNull mst)) eqn:Hn; [|discriminate].
    intro H. injection H as <-. repeat split; congruence.
  - destruct (truthy (MasterState.exists_ mst)); discriminate.
  - apply orb_false_iff in Hm as [_ Hn]. rewrite Hn.
    destruct (MasterState.nullVersionId mst) as [n|] eqn:En; simpl; [|discriminate].
    intro H. injection H as <-. repeat split; congruence.
Qed.

End DecisionProperties.

Section PipelineProperties.
Context {Loc : Type} {C : Collaborators Loc}.

Local Open Scope list_scope.

(** [_getNullVersionsToDelete], by whether the target is the master. *)
Lemma _getNullVersionsToDelete_unfold (bucketName objKey : string)
  (options : DelOptions.t) (mst : MasterState.t Loc) (w : World Loc) :
  _getNullVersionsToDelete bucketName objKey options mst w =
    if strict_eq (DelOptions.versionId options) (MasterState.versionId mst)
    then (inr (MasterState.objLocation mst), w)
    else
      (match fst (metadata_getObjectMD bucketName objKey options (store w)) with
       | inl err => inl err
       | inr versionMD =>
           inr (MasterState.objLocation (getMasterState (Some versionMD)))
       end,
       mkWorld (snd (metadata_getObjectMD bucketName objKey options (store w)))
         (calls w ++ [CallGetObjectMD bucketName objKey options])).
Proof.
  unfold _getNullVersionsToDelete.
  destruct (strict_eq (DelOptions.versionId options) (MasterState.versionId mst));
    [reflexivity|].
  unfold bind, getObjectMD, ret.
  destruct (metadata_getObjectMD bucketName objKey options (store w))
    as [[err | versionMD] s1]; simpl; [reflexivity|].
  destruct (truthy (ObjectMD.location versionMD)); reflexivity.
Qed.

(** [_deleteNullVersionMD], by whether the target is the master and by the
    result of the read. *)
Lemma _deleteNullVersionMD_unfold (bucketName objKey : string)
  (options : DelOptions.t) (mst : MasterState.t Loc) (w : World Loc) :
  _deleteNullVersionMD bucketName objKey options mst w =
    if strict_eq (DelOptions.versionId options) (MasterState.versionId mst) then
      let r := metadata_deleteObjectMD bucketName objKey options (store w) in
      (match fst r with
       | Some err => inl err
       | None => inr (MasterState.objLocation mst)
       end,
       mkWorld (snd r) (calls w ++ [CallDeleteObjectMD bucketName objKey options]))
    else
      let g := metadata_getObjectMD bucketName objKey options (store w) in
      match fst g with
      | inl err =>
          (inl err,
           mkWorld (snd g) (calls w ++ [CallGetObjectMD bucketName objKey options]))
      | inr versionMD =>
          let r := metadata_deleteObjectMD bucketName objKey options (snd g) in
          (match fst r with
           | Some err => inl err
           | None => inr (MasterState.objLocation (getMasterState (Some versionMD)))
           end,
           mkWorld (snd r)
             (calls w ++ [CallGetObjectMD bucketName objKey options;
                          CallDeleteObjectMD bucketName objKey options]))
      end.
Proof.
  unfold _deleteNullVersionMD, bind. rewrite _getNullVersionsToDelete_unfold.
  destruct (strict_eq (DelOptions.versionId options) (MasterState.versionId mst)).
  - unfold deleteObjectMD, ret. simpl.
    destruct (metadata_deleteObjectMD bucketName objKey options (store w))
      as [[e|] s']; reflexivity.
  - simpl.
    destruct (metadata_getObjectMD bucketName objKey options (store w))
      as [[err | versionMD] s1]; simpl; [reflexivity|].
    unfold deleteObjectMD, ret. simpl.
    destruct (metadata_deleteObjectMD bucketName objKey options s1)
      as [[e|] s']; simpl; rewrite <- app_assoc; reflexivity.
Qed.

(** A decision that asks for a store asks for no delete. *)
Lemma processVersioningState_storeOptions_no_delete (mst : MasterState.t Loc)
  (vstat : option string) (storeOptions : StoreOptions.t) :
  Decision.storeOptions (processVersioningState mst vstat) = Some storeOptions ->
  Decision.delOptions (processVersioningState mst vstat) = None.
Proof.
  intro Hs.
  destruct (Decision.delOptions (processVersioningState mst vstat)) eqn:Hd;
    [|reflexivity].
  apply processVersioningState_delOptions in Hd as (Hd & _). congruence.
Qed.

(** The series of [versioningPreprocessing] when the decision asks for a
    store: the outcome is that of [putObjectMD]. *)
Lemma versioningPreprocessing_store_step
  (bucketName : string) (bucketMD : BucketMD.t) (objectKey : string)
  (objMD : option (ObjectMD.t Loc)) (vCfg : VersioningConfiguration.t)
  (storeOptions : StoreOptions.t) (w : World Loc) :
  BucketMD.getVersioningConfiguration bucketMD = Some vCfg ->
  Decision.storeOptions
    (processVersioningState (getMasterState objMD)
       (VersioningConfiguration.Status vCfg)) = Some storeOptions ->
  versioningPreprocessing bucketName bucketMD objectKey objMD w =
    let versionMD := assign_storeOptions objMD storeOptions in
    let params := PutParams.mk (StoreOptions.versionId storeOptions) in
    let r := metadata_putObjectMD bucketName objectKey versionMD params (store w) in
    ((fst r,
      Decision.options
        (processVersioningState (getMasterState objMD)
           (VersioningConfiguration.Status vCfg))),
     mkWorld (snd r) (calls w ++ [CallPutObjectMD bucketName objectKey versionMD params])).
Proof.
  intros Hcfg Hstore.
  pose proof (processVersioningState_storeOptions_no_delete _ _ Hstore) as Hdel.
  unfold versioningPreprocessing. rewrite Hcfg. simpl.
  unfold storeVersion at 1. rewrite Hstore.
  unfold _storeNullVersionMD, putObjectMD, bind, ret.
  destruct (metadata_putObjectMD bucketName objectKey
              (assign_storeOptions objMD storeOptions)
              (PutParams.mk (StoreOptions.versionId storeOptions)) (store w))
    as [[e|] s']; simpl; [reflexivity|].
  unfold deleteNullVersion. rewrite Hdel. reflexivity.
Qed.

(** The series of [versioningPreprocessing] when the decision asks for
    neither a store nor a delete. *)
Lemma versioningPreprocessing_no_step
  (bucketName : string) (bucketMD : BucketMD.t) (objectKey : string)
  (objMD : option (ObjectMD.t Loc)) (vCfg : VersioningConfiguration.t)
  (w : World Loc) :
  BucketMD.getVersioningConfiguration bucketMD = Some vCfg ->
  Decision.storeOptions
    (processVersioningState (getMasterState objMD)
       (VersioningConfiguration.Status vCfg)) = None ->
  Decision.delOptions
    (processVersioningState (getMasterState objMD)
       (VersioningConfiguration.Status vCfg)) = None ->
  versioningPreprocessing bucketName bucketMD objectKey objMD w =
    ((None,
      Decision.options
        (processVersioningState (getMasterState objMD)
           (VersioningConfiguration.Status vCfg))), w).
Proof.
  intros Hcfg Hstore Hdel.
  unfold versioningPreprocessing. rewrite Hcfg. simpl.
  unfold storeVersion at 1. rewrite Hstore.
  unfold deleteNullVersion, bind, ret. rewrite Hdel. reflexivity.
Qed.

(** X11.  When the null version to delete is not the master,
    [_getNullVersionsToDelete] reads its record once and returns the data
    locations of that record normalised exactly as [getMasterState]
    normalises the master's: none for a record without location, a
    one-element array for a single location, the array itself otherwise. *)
Theorem _getNullVersionsToDelete_reads_like_getMasterState
  (bucketName objKey : string) (options : DelOptions.t) (mst : MasterState.t Loc)
  (w : World Loc) (versionMD : ObjectMD.t Loc) (s1 : Store) :
  DelOptions.versionId options <> MasterState.versionId mst ->
  metadata_getObjectMD bucketName objKey options (store w) = (inr versionMD, s1) ->
  _getNullVersionsToDelete bucketName objKey options mst w =
    (inr (MasterState.objLocation (getMasterState (Some versionMD))),
     mkWorld s1 (calls w ++ [CallGetObjectMD bucketName objKey options])).
Proof.
  intros Hne Hget. rewrite _getNullVersionsToDelete_unfold.
  destruct (strict_eq (DelOptions.versionId options) (MasterState.versionId mst)) eqn:E.
  - apply strict_eq_true in E. contradiction.
  - rewrite Hget. reflexivity.
Qed.

(** X12.  When the read of the null version's record fails,
    [_deleteNullVersionMD] reports that very error and does not call
    [deleteObjectMD]: the only call is the read, and the backend is left as
    the read left it. *)
Theorem _deleteNullVersionMD_failed_read_skips_delete
  (bucketName objKey : string) (options : DelOptions.t) (mst : MasterState.t Loc)
  (w : World Loc) (err : ArsenalError.t) (s1 : Store) :
  DelOptions.versionId options <> MasterState.versionId mst ->
  metadata_getObjectMD bucketName objKey options (store w) = (inl err, s1) ->
  _deleteNullVersionMD bucketName objKey options mst w =
    (inl err, mkWorld s1 (calls w ++ [CallGetObjectMD bucketName objKey options])).
Proof.
  intros Hne Hget. rewrite _deleteNullVersionMD_unfold.
  destruct (strict_eq (DelOptions.versionId options) (MasterState.versionId mst)) eqn:E.
  - apply strict_eq_true in E. contradiction.
  - simpl. rewrite Hget. reflexivity.
Qed.

(** X13.  [_deleteNullVersionMD] makes one of three sequences of calls: the
    delete alone (the target is the master), the read alone (the read
    failed), or the read followed by the delete; it never deletes twice and
    never reads after deleting.  It reports success only when the delete
    was its last call. *)
Theorem _deleteNullVersionMD_call_protocol
  (bucketName objKey : string) (options : DelOptions.t) (mst : MasterState.t Loc)
  (w : World Loc) :
  let r := _deleteNullVersionMD bucketName objKey options mst w in
  let get := CallGetObjectMD bucketName objKey options in
  let delete := CallDeleteObjectMD bucketName objKey options in
  (calls (snd r) = calls w ++ [delete]
   \/ calls (snd r) = calls w ++ [get; delete]
   \/ (calls (snd r) = calls w ++ [get] /\ exists err, fst r = inl err)).
Proof.
  intros r get delete. subst r get delete.
  rewrite _deleteNullVersionMD_unfold.
  destruct (strict_eq (DelOptions.versionId options) (MasterState.versionId mst)).
  - left. reflexivity.
  - simpl.
    destruct (metadata_getObjectMD bucketName objKey options (store w))
      as [[err | versionMD] s1]; simpl.
    + right. right. split; [reflexivity | now exists err].
    + right. left. reflexivity.
Qed.

(** A delete is only decided for a suspended bucket, a store only for a
    bucket that is not suspended. *)
Lemma processVersioningState_delOptions_suspended (mst : MasterState.t Loc)
  (vstat : option string) (delOptions : DelOptions.t) :
  Decision.delOptions (processVersioningState mst vstat) = Some delOptions ->
  vstat = Some "Suspended".
Proof.
  destruct (vstat_cases vstat) as [-> | Hv]; [reflexivity|].
  destruct (is_undefined (MasterState.versionId mst)
            || truthy (MasterState.isNull mst)) eqn:Hm.
  - rewrite (processVersioningState_enabled_unversioned _ _ Hm Hv).
    destruct (truthy (MasterState.exists_ mst)); discriminate.
  - rewrite (processVersioningState_enabled_versioned _ _ Hm Hv). discriminate.
Qed.

Lemma processVersioningState_storeOptions_not_suspended (mst : MasterState.t Loc)
  (vstat : option string) (storeOptions : StoreOptions.t) :
  Decision.storeOptions (processVersioningState mst vstat) = Some storeOptions ->
  vstat <> Some "Suspended" /\ truthy (MasterState.exists_ mst) = true.
Proof.
  destruct (vstat_cases vstat) as [-> | Hv];
    destruct (is_undefined (MasterState.versionId mst)
              || truthy (MasterState.isNull mst)) eqn:Hm.
  - rewrite (processVersioningState_suspended_unversioned _ Hm). discriminate.
  - rewrite (processVersioningState_suspended_versioned _ Hm). discriminate.
  - rewrite (processVersioningState_enabled_unversioned _ _ Hm Hv).
    destruct (truthy (MasterState.exists_ mst)); [|discriminate].
    intros _. split; [|reflexivity]. intros ->. discriminate.
  - rewrite (processVersioningState_enabled_versioned _ _ Hm Hv). discriminate.
Qed.

(** The data to delete of a decision that is not for a suspended bucket. *)
Lemma processVersioningState_not_suspended_dataToDelete (mst : MasterState.t Loc)
  (vstat : option string) :
  vstat <> Some "Suspended" ->
  Options.dataToDelete (Decision.options (processVersioningState mst vstat)) = None.
Proof.
  intro Hne. destruct (vstat_cases vstat) as [-> | Hv]; [contradiction|].
  destruct (is_undefined (MasterState.versionId mst)
            || truthy (MasterState.isNull mst)) eqn:Hm.
  - rewrite (processVersioningState_enabled_unversioned _ _ Hm Hv).
    destruct (truthy (MasterState.exists_ mst)); reflexivity.
  - rewrite (processVersioningState_enabled_versioned _ _ Hm Hv). reflexivity.
Qed.

(** [versioningPreprocessing] on a bucket without versioning configuration. *)
Lemma versioningPreprocessing_without_versioning_aux
  (bucketName : string) (bucketMD : BucketMD.t) (objectKey : string)
  (objMD : option (ObjectMD.t Loc)) (w : World Loc) :
  BucketMD.getVersioningConfiguration bucketMD = None ->
  versioningPreprocessing bucketName bucketMD objectKey objMD w =
    ((None,
      Options.set_dataToDelete (MasterState.objLocation (getMasterState objMD))
        Options.empty), w).
Proof.
  intro Hcfg. unfold versioningPreprocessing. rewrite Hcfg. reflexivity.
Qed.

(** X14.  On a bucket without versioning configuration,
    [versioningPreprocessing] calls no collaborator and cannot fail: the
    callback receives options that hold nothing but [dataToDelete], the
    normalised location of the record being overwritten (unset when there
    is no record or the record has no location). *)
Theorem versioningPreprocessing_without_versioning
  (bucketName : string) (bucketMD : BucketMD.t) (objectKey : string)
  (objMD : option (ObjectMD.t Loc)) (w : World Loc) :
  BucketMD.getVersioningConfiguration bucketMD = None ->
  versioningPreprocessing bucketName bucketMD objectKey objMD w =
    ((None,
      Options.mk None None None None None
        (match objMD with
         | Some md => location_as_array (ObjectMD.location md)
         | None => None
         end)), w).
Proof.
  intro Hcfg. unfold versioningPreprocessing. rewrite Hcfg.
  destruct objMD as [md|]; [|reflexivity].
  unfold getMasterState.
  destruct (ObjectMD.location md); reflexivity.
Qed.

(** X15.  For a key that has no record yet, [versioningPreprocessing]
    calls no collaborator and cannot fail, whatever the bucket: nothing is
    stored, deleted or scheduled for deletion, and the options only say
    whether to create a version or to write a null version in place. *)
Theorem versioningPreprocessing_new_key
  (bucketName : string) (bucketMD : BucketMD.t) (objectKey : string)
  (w : World Loc) :
  versioningPreprocessing bucketName bucketMD objectKey None w =
    ((None,
      match BucketMD.getVersioningConfiguration bucketMD with
      | None => Options.mk None None None None None None
      | Some vCfg =>
          if strict_eq (VersioningConfiguration.Status vCfg) (Some "Suspended")
          then Options.mk (Some "") (Some true) None None None None
          else Options.mk None None (Some true) None None None
      end), w).
Proof.
  unfold versioningPreprocessing.
  destruct (BucketMD.getVersioningConfiguration bucketMD) as [[vstat]|];
    [|reflexivity].
  cbv [getMasterState VersioningConfiguration.Status].
  destruct (vstat_cases vstat) as [-> | Hv]; [reflexivity|].
  rewrite Hv,
    (processVersioningState_enabled_unversioned MasterState.empty vstat eq_refl Hv).
  reflexivity.
Qed.

(** X16.  When the decision asks for a store and [putObjectMD] succeeds,
    [versioningPreprocessing] ends without error after that single call,
    with the options as decided.  The record stored is the master's record
    with [isNull] set and [versionId] replaced by the identifier of the
    store; every other property, the data location among them, is the
    master's. *)
Theorem versioningPreprocessing_store_success
  (bucketName : string) (bucketMD : BucketMD.t) (objectKey : string)
  (objMD : option (ObjectMD.t Loc)) (vCfg : VersioningConfiguration.t)
  (storeOptions : StoreOptions.t) (w : World Loc) (s' : Store) :
  BucketMD.getVersioningConfiguration bucketMD = Some vCfg ->
  let d :=
    processVersioningState (getMasterState objMD)
      (VersioningConfiguration.Status vCfg) in
  Decision.storeOptions d = Some storeOptions ->
  metadata_putObjectMD bucketName objectKey
    (assign_storeOptions objMD storeOptions)
    (PutParams.mk (StoreOptions.versionId storeOptions)) (store w) = (None, s') ->
  exists md,
    objMD = Some md
    /\ versioningPreprocessing bucketName bucketMD objectKey objMD w =
         ((None, Decision.options d),
          mkWorld s'
            (calls w ++
             [CallPutObjectMD bucketName objectKey
                (ObjectMD.mk (StoreOptions.versionId storeOptions)
                   (ObjectMD.uploadId md) (Some true)
                   (ObjectMD.nullVersionId md) (ObjectMD.nullUploadId md)
                   (ObjectMD.location md) (ObjectMD.creation_time md)
                   (ObjectMD.last_modified md) (ObjectMD.archive md))
                (PutParams.mk (StoreOptions.versionId storeOptions))])).
Proof.
  intros Hcfg d Hstore Hput. subst d.
  destruct (processVersioningState_storeOptions_not_suspended _ _ Hstore)
    as [_ Hex].
  destruct objMD as [md|]; [|discriminate].
  exists md. split; [reflexivity|].
  rewrite (versioningPreprocessing_store_step _ _ _ _ w Hcfg Hstore).
  simpl. rewrite Hput. simpl.
  assert (Hnull : StoreOptions.isNull storeOptions = Some true).
  { destruct (processVersioningState_storeOptions_not_suspended _ _ Hstore)
      as [Hne _].
    destruct (vstat_cases (VersioningConfiguration.Status vCfg)) as [E | Hv];
      [contradiction|].
    destruct (is_undefined (MasterState.versionId (getMasterState (Some md)))
              || truthy (MasterState.isNull (getMasterState (Some md)))) eqn:Hm.
    - rewrite (processVersioningState_enabled_unversioned _ _ Hm Hv) in Hstore.
      rewrite Hex in Hstore. simpl in Hstore. injection Hstore as <-. reflexivity.
    - rewrite (processVersioningState_enabled_versioned _ _ Hm Hv) in Hstore.
      discriminate. }
  unfold assign_storeOptions. rewrite Hnull. reflexivity.
Qed.

(** X17.  The calls of [versioningPreprocessing] to the metadata backend,
    by the status of the bucket.  When the bucket is not suspended it makes
    no call or the single [putObjectMD] of the store: it never reads or
    deletes a version.  When the bucket is suspended it never stores: it
    makes no call, or the delete alone, the read alone, or the read
    followed by the delete, all on the [delOptions] of the decision. *)
Theorem versioningPreprocessing_call_protocol
  (bucketName : string) (bucketMD : BucketMD.t) (objectKey : string)
  (objMD : option (ObjectMD.t Loc)) (vCfg : VersioningConfiguration.t)
  (w : World Loc) :
  BucketMD.getVersioningConfiguration bucketMD = Some vCfg ->
  let r := versioningPreprocessing bucketName bucketMD objectKey objMD w in
  (VersioningConfiguration.Status vCfg <> Some "Suspended" ->
   snd r = w
   \/ exists versionMD params,
       calls (snd r) = calls w ++ [CallPutObjectMD bucketName objectKey versionMD params])
  /\ (VersioningConfiguration.Status vCfg = Some "Suspended" ->
      snd r = w
      \/ exists delOptions,
          Decision.delOptions
            (processVersioningState (getMasterState objMD) (Some "Suspended"))
          = Some delOptions
          /\ (calls (snd r) =
                calls w ++ [CallDeleteObjectMD bucketName objectKey delOptions]
              \/ calls (snd r) =
                   calls w ++ [CallGetObjectMD bucketName objectKey delOptions]
              \/ calls (snd r) =
                   calls w ++ [CallGetObjectMD bucketName objectKey delOptions;
                               CallDeleteObjectMD bucketName objectKey delOptions])).
Proof.
  intros Hcfg r. subst r.
  set (d := processVersioningState (getMasterState objMD)
              (VersioningConfiguration.Status vCfg)).
  destruct (Decision.delOptions d) as [del|] eqn:Hdel;
    [|destruct (Decision.storeOptions d) as [so|] eqn:Hstore].
  - pose proof (processVersioningState_delOptions_suspended _ _ Hdel) as Hs.
    split; [congruence|]. intros _. right. exists del.
    split; [subst d; rewrite <- Hs; exact Hdel|].
    rewrite (versioningPreprocessing_delete_step _ _ _ _ w Hcfg Hdel).
    pose proof (_deleteNullVersionMD_unfold bucketName objectKey del
                  (getMasterState objMD) w) as Hu.
    cbv zeta.
    destruct (_deleteNullVersionMD bucketName objectKey del (getMasterState objMD) w)
      as [res w'].
    assert (Hw : snd (let (r, w'0) := (res, w') in
                      match r with
                      | inl err =>
                          ((if ArsenalError.is_NoSuchKey err
                            then None else Some errors.InternalError,
                            Decision.options d), w'0)
                      | inr nullDataToDelete =>
                          ((None,
                            Options.set_dataToDelete nullDataToDelete
                              (Decision.options d)), w'0)
                      end) = w') by (destruct res; reflexivity).
    fold d. rewrite Hw.
    destruct (strict_eq (DelOptions.versionId del)
                (MasterState.versionId (getMasterState objMD))).
    + left. injection Hu as _ ->. reflexivity.
    + simpl in Hu.
      destruct (metadata_getObjectMD bucketName objectKey del (store w))
        as [[err | versionMD] s1]; simpl in Hu; injection Hu as _ ->.
      * right. left. reflexivity.
      * right. right. reflexivity.
  - pose proof (processVersioningState_storeOptions_not_suspended _ _ Hstore)
      as [Hne _].
    split; [|congruence]. intros _. right.
    rewrite (versioningPreprocessing_store_step _ _ _ _ w Hcfg Hstore).
    simpl. eauto.
  - rewrite (versioningPreprocessing_no_step _ _ _ _ w Hcfg Hstore Hdel).
    split; intros _; now left.
Qed.

(** X18.  An error that [versioningPreprocessing] calls back with is either
    [InternalError] or the error of the failed store, passed on unchanged:
    an error of the null-version cleanup, [NoSuchKey] in particular, never
    reaches the caller as it is. *)
Theorem versioningPreprocessing_error_kinds
  (bucketName : string) (bucketMD : BucketMD.t) (objectKey : string)
  (objMD : option (ObjectMD.t Loc)) (w : World Loc) (err : ArsenalError.t) :
  fst (fst (versioningPreprocessing bucketName bucketMD objectKey objMD w))
    = Some err ->
  err = errors.InternalError
  \/ exists vCfg storeOptions,
      BucketMD.getVersioningConfiguration bucketMD = Some vCfg
      /\ Decision.storeOptions
           (processVersioningState (getMasterState objMD)
              (VersioningConfiguration.Status vCfg)) = Some storeOptions
      /\ fst (metadata_putObjectMD bucketName objectKey
                (assign_storeOptions objMD storeOptions)
                (PutParams.mk (StoreOptions.versionId storeOptions)) (store w))
         = Some err.
Proof.
  destruct (BucketMD.getVersioningConfiguration bucketMD) as [vCfg|] eqn:Hcfg.
  - set (d := processVersioningState (getMasterState objMD)
                (VersioningConfiguration.Status vCfg)).
    destruct (Decision.delOptions d) as [del|] eqn:Hdel;
      [|destruct (Decision.storeOptions d) as [so|] eqn:Hstore].
    + rewrite (versioningPreprocessing_delete_step _ _ _ _ w Hcfg Hdel). cbv zeta.
      destruct (_deleteNullVersionMD bucketName objectKey del (getMasterState objMD) w)
        as [[e | nd] w']; simpl; [|discriminate].
      destruct (ArsenalError.is_NoSuchKey e); [discriminate|].
      intro H. injection H as <-. now left.
    + rewrite (versioningPreprocessing_store_step _ _ _ _ w Hcfg Hstore). simpl.
      intro H. right. exists vCfg, so. auto.
    + rewrite (versioningPreprocessing_no_step _ _ _ _ w Hcfg Hstore Hdel).
      discriminate.
  - rewrite (versioningPreprocessing_without_versioning_aux _ _ _ _ w Hcfg).
    discriminate.
Qed.

(** X19.  On a bucket with a versioning configuration, the options that
    [versioningPreprocessing] calls back with are those of the decision in
    every property but [dataToDelete]; when the bucket is not suspended
    they are the decided options as they are, and they never hold data to
    delete. *)
Theorem versioningPreprocessing_keeps_decided_options
  (bucketName : string) (bucketMD : BucketMD.t) (objectKey : string)
  (objMD : option (ObjectMD.t Loc)) (vCfg : VersioningConfiguration.t)
  (w : World Loc) :
  BucketMD.getVersioningConfiguration bucketMD = Some vCfg ->
  let d :=
    processVersioningState (getMasterState objMD)
      (VersioningConfiguration.Status vCfg) in
  let options :=
    snd (fst (versioningPreprocessing bucketName bucketMD objectKey objMD w)) in
  Options.versionId options = Options.versionId (Decision.options d)
  /\ Options.isNull options = Options.isNull (Decision.options d)
  /\ Options.versioning options = Options.versioning (Decision.options d)
  /\ Options.nullVersionId options = Options.nullVersionId (Decision.options d)
  /\ Options.nullUploadId options = Options.nullUploadId (Decision.options d)
  /\ (VersioningConfiguration.Status vCfg <> Some "Suspended" ->
      options = Decision.options d /\ Options.dataToDelete options = None).
Proof.
  intros Hcfg d options. subst options.
  destruct (Decision.delOptions d) as [del|] eqn:Hdel;
    [|destruct (Decision.storeOptions d) as [so|] eqn:Hstore].
  - pose proof (processVersioningState_delOptions_suspended _ _ Hdel) as Hs.
    rewrite (versioningPreprocessing_delete_step _ _ _ _ w Hcfg Hdel). cbv zeta.
    fold d.
    destruct (_deleteNullVersionMD bucketName objectKey del (getMasterState objMD) w)
      as [[e | nd] w']; simpl; repeat split; congruence.
  - rewrite (versioningPreprocessing_store_step _ _ _ _ w Hcfg Hstore). simpl.
    fold d. repeat split.
    now apply processVersioningState_not_suspended_dataToDelete.
  - rewrite (versioningPreprocessing_no_step _ _ _ _ w Hcfg Hstore Hdel). simpl.
    fold d. repeat split.
    now apply processVersioningState_not_suspended_dataToDelete.
Qed.

End PipelineProperties.

Section DeleteProperties.
Context {Loc : Type} {C : Collaborators Loc}.

(** X20.  [preprocessingVersioningDelete] calls back either with options
    and no error or with the [NoSuchKey] error and no options, and it fails
    exactly when the bucket has a versioning configuration, the requested
    version is ['null'], and the record has a version id, is not a null
    version and refers to no null version. *)
Theorem preprocessingVersioningDelete_fails_iff
  (bucketName : string) (bucketMD : BucketMD.t) (objectMD : ObjectMD.t Loc)
  (reqVersionId : option string) :
  let r := preprocessingVersioningDelete bucketName bucketMD objectMD reqVersionId in
  ((exists options, r = (None, Some options)) \/ r = (Some errors.NoSuchKey, None))
  /\ (r = (Some errors.NoSuchKey, None)
      <-> BucketMD.getVersioningConfiguration bucketMD <> None
          /\ reqVersionId = Some "null"
          /\ ObjectMD.versionId objectMD <> None
          /\ truthy (ObjectMD.isNull objectMD) = false
          /\ truthy (ObjectMD.nullVersionId objectMD) = false).
Proof.
  intro r. subst r. unfold preprocessingVersioningDelete.
  destruct (BucketMD.getVersioningConfiguration bucketMD) as [cfg|].
  2:{ split; [left; eauto|]. split; [discriminate | intros [H _]; congruence]. }
  destruct reqVersionId as [v|]; simpl.
  2:{ split; [left; eauto|]. split; [discriminate | intros (_ & H & _); congruence]. }
  cbv [truthy truthy_string]. fold (truthy (ObjectMD.isNull objectMD)).
  destruct (String.eqb v "") eqn:Ev; simpl.
  { apply String.eqb_eq in Ev. subst.
    split; [left; eauto|]. split; [discriminate | intros (_ & H & _); congruence]. }
  destruct (String.eqb v "null") eqn:En; simpl.
  2:{ split; [left; eauto|]. split; [discriminate|].
      intros (_ & H & _). injection H as ->. discriminate. }
  apply String.eqb_eq in En. subst v.
  destruct (ObjectMD.versionId objectMD) as [vid|]; simpl.
  2:{ split; [left; eauto|]. split; [discriminate | intros (_ & _ & H & _); congruence]. }
  destruct (truthy (ObjectMD.isNull objectMD)); simpl.
  { split; [left; eauto|]. split; [discriminate | intros (_ & _ & _ & H & _); congruence]. }
  destruct (ObjectMD.nullVersionId objectMD) as [n|]; simpl.
  - destruct (String.eqb n ""); simpl.
    + split; [now right|]. split; trivial. intros _.
      repeat split; congruence.
    + split; [left; eauto|].
      split; [discriminate | intros (_ & _ & _ & _ & H); congruence].
  - split; [now right|]. split; trivial. intros _. repeat split; congruence.
Qed.

(** X21.  Without versioning configuration the delete is a hard delete
    with no version targeted, whatever version the request names.  With a
    configuration, the options ask for the deletion of data exactly when
    the request names a version; without a requested version (none, or the
    empty string) the options are empty, which asks for a delete marker. *)
Theorem preprocessingVersioningDelete_deleteData
  (bucketName : string) (bucketMD : BucketMD.t) (objectMD : ObjectMD.t Loc)
  (reqVersionId : option string) :
  (BucketMD.getVersioningConfiguration bucketMD = None ->
   preprocessingVersioningDelete bucketName bucketMD objectMD reqVersionId
   = (None, Some (DeleteOptions.mk (Some true) None None None)))
  /\ (BucketMD.getVersioningConfiguration bucketMD <> None ->
      truthy reqVersionId = false ->
      preprocessingVersioningDelete bucketName bucketMD objectMD reqVersionId
      = (None, Some (DeleteOptions.mk None None None None)))
  /\ (forall options,
        truthy reqVersionId = true ->
        preprocessingVersioningDelete bucketName bucketMD objectMD reqVersionId
        = (None, Some options) ->
        DeleteOptions.deleteData options = Some true).
Proof.
  unfold preprocessingVersioningDelete.
  destruct (BucketMD.getVersioningConfiguration bucketMD) as [cfg|].
  - split; [discriminate|]. split.
    + intros _ H. rewrite H. reflexivity.
    + intros options H. rewrite H. simpl.
      destruct (negb (strict_eq reqVersionId (Some "null"))).
      * destruct (truthy (ObjectMD.uploadId objectMD));
          intro E; injection E as <-; reflexivity.
      * destruct (is_undefined (ObjectMD.versionId objectMD));
          [intro E; injection E as <-; reflexivity|].
        destruct (truthy (ObjectMD.isNull objectMD)).
        { destruct (truthy (ObjectMD.uploadId objectMD));
            intro E; injection E as <-; reflexivity. }
        destruct (truthy (ObjectMD.nullVersionId objectMD)); [|discriminate].
        destruct (truthy (ObjectMD.nullUploadId objectMD));
          intro E; injection E as <-; reflexivity.
  - split; [reflexivity|]. split; [congruence|].
    intros options _ E. injection E as <-. reflexivity.
Qed.

(** X22.  Which version a delete with a versioning configuration targets.
    A requested version other than ['null'] is targeted as it is, with the
    [uploadId] of the record (when it is a non-empty string) as [replayId];
    the versioning properties of the record play no part.  For the
    requested version ['null']: a record without version id is deleted
    without naming a version and without [replayId], even when it has an
    [uploadId]; a null-version master is deleted under its own version id,
    flagged [isNull], with its [uploadId] as [replayId]; a versioned master
    that refers to a null version has that version deleted, with
    [nullUploadId] as [replayId] and without the [isNull] flag. *)
Theorem preprocessingVersioningDelete_targets
  (bucketName : string) (bucketMD : BucketMD.t) (objectMD : ObjectMD.t Loc) :
  BucketMD.getVersioningConfiguration bucketMD <> None ->
  let r := preprocessingVersioningDelete bucketName bucketMD objectMD in
  (forall versionId,
      versionId <> "" -> versionId <> "null" ->
      r (Some versionId) =
        (None,
         Some (DeleteOptions.mk (Some true) (Some versionId) None
                 (if truthy (ObjectMD.uploadId objectMD)
                  then ObjectMD.uploadId objectMD else None))))
  /\ (ObjectMD.versionId objectMD = None ->
      r (Some "null") = (None, Some (DeleteOptions.mk (Some true) None None None)))
  /\ (ObjectMD.versionId objectMD <> None ->
      truthy (ObjectMD.isNull objectMD) = true ->
      r (Some "null") =
        (None,
         Some (DeleteOptions.mk (Some true) (ObjectMD.versionId objectMD) (Some true)
                 (if truthy (ObjectMD.uploadId objectMD)
                  then ObjectMD.uploadId objectMD else None))))
  /\ (ObjectMD.versionId objectMD <> None ->
      truthy (ObjectMD.isNull objectMD) = false ->
      truthy (ObjectMD.nullVersionId objectMD) = true ->
      r (Some "null") =
        (None,
         Some (DeleteOptions.mk (Some true) (ObjectMD.nullVersionId objectMD) None
                 (if truthy (ObjectMD.nullUploadId objectMD)
                  then ObjectMD.nullUploadId objectMD else None)))).
Proof.
  intros Hcfg r. subst r. unfold preprocessingVersioningDelete.
  destruct (BucketMD.getVersioningConfiguration bucketMD); [|congruence].
  split; [|simpl; split; [|split]].
  - intros versionId He Hn. cbv [truthy truthy_string]. simpl.
    apply String.eqb_neq in He, Hn. rewrite He, Hn. simpl.
    destruct (ObjectMD.uploadId objectMD) as [u|];
      [destruct (String.eqb u "")|]; reflexivity.
  - intros ->. reflexivity.
  - intros Hv ->. destruct (ObjectMD.versionId objectMD); [|congruence]. simpl.
    destruct (truthy (ObjectMD.uploadId objectMD)); reflexivity.
  - intros Hv -> ->. destruct (ObjectMD.versionId objectMD); [|congruence]. simpl.
    destruct (truthy (ObjectMD.nullUploadId objectMD)); reflexivity.
Qed.

(** X23.  The write path and the delete path agree on the null version of
    an object.  For a record with a version id whose [nullVersionId] is not
    the empty string: whenever [processVersioningState], for a suspended
    bucket, asks for the delete of a null version, a delete request for
    version ['null'] on that record succeeds and targets the same version
    with the same [replayId]. *)
Theorem null_version_target_agrees
  (bucketName : string) (bucketMD : BucketMD.t) (objectMD : ObjectMD.t Loc)
  (delOptions : DelOptions.t) :
  BucketMD.getVersioningConfiguration bucketMD <> None ->
  ObjectMD.versionId objectMD <> None ->
  ObjectMD.nullVersionId objectMD <> Some "" ->
  Decision.delOptions
    (processVersioningState (getMasterState (Some objectMD)) (Some "Suspended"))
  = Some delOptions ->
  exists options,
    preprocessingVersioningDelete bucketName bucketMD objectMD (Some "null")
    = (None, Some options)
    /\ DeleteOptions.deleteData options = Some true
    /\ DeleteOptions.versionId options = DelOptions.versionId delOptions
    /\ DeleteOptions.replayId options = DelOptions.replayId delOptions.
Proof.
  intros Hcfg Hvid Hnv.
  assert (Hmst :
            MasterState.versionId (getMasterState (Some objectMD))
            = ObjectMD.versionId objectMD
            /\ MasterState.isNull (getMasterState (Some objectMD))
               = ObjectMD.isNull objectMD
            /\ MasterState.uploadId (getMasterState (Some objectMD))
               = ObjectMD.uploadId objectMD
            /\ MasterState.nullVersionId (getMasterState (Some objectMD))
               = ObjectMD.nullVersionId objectMD
            /\ MasterState.nullUploadId (getMasterState (Some objectMD))
               = ObjectMD.nullUploadId objectMD).
  { unfold getMasterState.
    destruct (truthy (ObjectMD.location objectMD)); repeat split. }
  destruct Hmst as (Ev & En & Eu & Env & Enu).
  unfold preprocessingVersioningDelete.
  destruct (BucketMD.getVersioningConfiguration bucketMD); [|congruence].
  cbn [truthy truthy_string strict_eq String.eqb Ascii.eqb Bool.eqb negb andb].
  destruct (is_undefined (MasterState.versionId (getMasterState (Some objectMD)))
            || truthy (MasterState.isNull (getMasterState (Some objectMD)))) eqn:Hm.
  - rewrite (processVersioningState_suspended_unversioned _ Hm).
    cbn [Decision.delOptions]. rewrite En, Ev, Eu.
    destruct (truthy (ObjectMD.isNull objectMD)); [|discriminate].
    intro H. injection H as <-.
    destruct (ObjectMD.versionId objectMD); [|congruence].
    cbn [is_undefined].
    destruct (truthy (ObjectMD.uploadId objectMD)); eexists; repeat split.
  - rewrite (processVersioningState_suspended_versioned _ Hm).
    cbn [Decision.delOptions].
    apply orb_false_iff in Hm as [_ Hn]. rewrite En in Hn.
    rewrite Env, Enu, Hn.
    destruct (ObjectMD.versionId objectMD); [|congruence].
    destruct (ObjectMD.nullVersionId objectMD) as [n|] eqn:E; [|discriminate].
    cbn [is_undefined].
    intro H. injection H as <-.
    assert (Ht : truthy (Some n) = true).
    { cbv [truthy truthy_string]. destruct (String.eqb n "") eqn:E0; [|reflexivity].
      apply String.eqb_eq in E0. subst. congruence. }
    rewrite Ht.
    destruct (truthy (ObjectMD.nullUploadId objectMD)); eexists; repeat split.
Qed.

End DeleteProperties.

Section OverwriteProperties.
Context {Loc : Type}.

(** The archive that [overwritingVersioning] writes. *)
Lemma overwritingVersioning_archive (objMD : ObjectMD.t Loc)
  (metadataStoreParams : MetadataStoreParams.t) (now : Z) :
  exists ar,
    MetadataStoreParams.archive
      (fst (overwritingVersioning objMD metadataStoreParams now)) = Some ar
    /\ ArchiveParams.restoreCompletedAt ar = JSDate.new (Some now)
    /\ ArchiveParams.restoreWillExpireAt ar =
         JSDate.new
           (match ObjectMD.archive objMD with
            | Some a =>
                match Archive.restoreRequestedDays a with
                | Some days => Some (now + days * 86400000)%Z
                | None => None
                end
            | None => None
            end).
Proof.
  unfold overwritingVersioning. simpl. eexists. split; [reflexivity|].
  split; [reflexivity|]. simpl.
  destruct (ObjectMD.archive objMD) as [a|]; [|reflexivity].
  destruct (Archive.restoreRequestedDays a); reflexivity.
Qed.

(** X24.  [overwritingVersioning] never fails, and the expiry date it
    writes is a valid date exactly when the record has
    [archive.restoreRequestedDays] and [now + days * 86400000] lies in the
    range of time values; the date then has exactly that time value.  A
    record without [archive] or without [restoreRequestedDays] gets the
    invalid date as [restoreWillExpireAt]. *)
Theorem overwritingVersioning_expiry_valid_iff (objMD : ObjectMD.t Loc)
  (metadataStoreParams : MetadataStoreParams.t) (now : Z) :
  exists ar,
    MetadataStoreParams.archive
      (fst (overwritingVersioning objMD metadataStoreParams now)) = Some ar
    /\ forall t,
        ArchiveParams.restoreWillExpireAt ar = JSDate.Valid t
        <-> exists a days,
              ObjectMD.archive objMD = Some a
              /\ Archive.restoreRequestedDays a = Some days
              /\ t = (now + days * 86400000)%Z
              /\ JSDate.in_range t = true.
Proof.
  destruct (overwritingVersioning_archive objMD metadataStoreParams now)
    as (ar & Har & _ & Hexp).
  exists ar. split; [exact Har|]. intro t. rewrite Hexp.
  destruct (ObjectMD.archive objMD) as [a|]; simpl.
  - destruct (Archive.restoreRequestedDays a) as [days|] eqn:Ed; simpl.
    + destruct (JSDate.in_range (now + days * 86400000)) eqn:E; split.
      * intro H. injection H as <-. exists a, days. auto.
      * intros (a' & days' & Ha & Hd & -> & _).
        injection Ha as <-. congruence.
      * discriminate.
      * intros (a' & days' & Ha & Hd & -> & Hr).
        injection Ha as <-. congruence.
    + split; [discriminate|].
      intros (a' & days' & Ha & Hd & _). congruence.
  - split; [discriminate|]. intros (a' & days' & Ha & _). discriminate.
Qed.

(** X25.  The options returned by [overwritingVersioning] never hold the
    empty string as [versionId] (the value that makes the metadata layer
    overwrite the master key): [versionId] is the record's non-empty
    version id or is undefined. *)
Theorem overwritingVersioning_versionId_never_empty (objMD : ObjectMD.t Loc)
  (metadataStoreParams : MetadataStoreParams.t) (now : Z) :
  let options := snd (overwritingVersioning objMD metadataStoreParams now) in
  OverwriteOptions.versionId options <> Some ""
  /\ (OverwriteOptions.versionId options = None
      \/ OverwriteOptions.versionId options = ObjectMD.versionId objMD).
Proof.
  unfold overwritingVersioning, or_undefined. simpl.
  destruct (ObjectMD.versionId objMD) as [v|]; cbv [truthy truthy_string].
  - destruct (String.eqb v "") eqn:E; simpl.
    + split; [discriminate | now left].
    + split; [|now right]. intro H. injection H as ->. discriminate.
  - split; [discriminate | now left].
Qed.

End OverwriteProperties.

(* ================================================================== *)
(** * Properties of tagConditionKeys.js *)

Section TagQueryProperties.

Lemma string_app_assoc (a b c : string) : (a ++ b) ++ c = a ++ (b ++ c).
Proof. induction a as [|x a IH]; simpl; [reflexivity | now rewrite IH]. Qed.

Lemma string_app_empty_r (a : string) : a ++ "" = a.
Proof. induction a as [|x a IH]; simpl; [reflexivity | now rewrite IH]. Qed.

Lemma occurs_app (c : ascii) (a b : string) :
  occurs c (a ++ b) = occurs c a || occurs c b.
Proof.
  induction a as [|x a IH]; simpl; [reflexivity|].
  now rewrite IH, orb_assoc.
Qed.

(** A string is cut in one way only at the first occurrence of [c]. *)
Lemma cut_at_first_unique (c : ascii) (a b ra rb : string) :
  occurs c a = false -> occurs c b = false ->
  a ++ String c ra = b ++ String c rb ->
  a = b /\ ra = rb.
Proof.
  revert b. induction a as [|x a IH]; intros [|y b]; simpl; intros Ha Hb E.
  - injection E as ->. now split.
  - injection E as <- _. apply orb_false_iff in Hb as [Hb _].
    now rewrite Ascii.eqb_refl in Hb.
  - injection E as -> _. apply orb_false_iff in Ha as [Ha _].
    now rewrite Ascii.eqb_refl in Ha.
  - injection E as -> E.
    apply orb_false_iff in Ha as [_ Ha]. apply orb_false_iff in Hb as [_ Hb].
    destruct (IH b Ha Hb E) as [-> ->]. now split.
Qed.

Lemma makeTagQuery_cons (k v : string) (tags : Tags) :
  makeTagQuery ((k, v) :: tags) = k ++ String "="%char (v ++ query_tail tags).
Proof.
  unfold makeTagQuery. simpl.
  destruct tags as [|i tags]; simpl.
  - now rewrite string_app_empty_r.
  - rewrite string_app_assoc. reflexivity.
Qed.

(** X26.  [makeTagQuery] renders the empty tag set, and only the empty tag
    set, as the empty string, and it is injective on tag sets whose keys
    contain no ['='] and whose values contain no ['&']: two such tag sets
    with the same query have the same entries in the same order. *)
Theorem makeTagQuery_injective (tags1 tags2 : Tags) :
  (makeTagQuery tags1 = "" <-> tags1 = [])
  /\ (forallb unambiguous_tag tags1 = true ->
      forallb unambiguous_tag tags2 = true ->
      makeTagQuery tags1 = makeTagQuery tags2 ->
      tags1 = tags2).
Proof.
  split.
  - split; [|intros ->; reflexivity].
    destruct tags1 as [|[k v] tags]; [reflexivity|].
    rewrite makeTagQuery_cons. intro H.
    apply (f_equal (occurs "="%char)) in H.
    rewrite occurs_app in H. simpl in H. rewrite orb_true_r in H. discriminate.
  - revert tags2.
    induction tags1 as [|[k1 v1] r1 IH]; intros [|[k2 v2] r2] H1 H2 E.
    + reflexivity.
    + rewrite makeTagQuery_cons in E.
      apply (f_equal (occurs "="%char)) in E.
      rewrite occurs_app in E. simpl in E. rewrite orb_true_r in E. discriminate.
    + rewrite makeTagQuery_cons in E.
      apply (f_equal (occurs "="%char)) in E.
      rewrite occurs_app in E. simpl in E. rewrite orb_true_r in E. discriminate.
    + simpl in H1, H2.
      apply andb_true_iff in H1 as [U1 H1]. apply andb_true_iff in H2 as [U2 H2].
      unfold unambiguous_tag in U1, U2. simpl in U1, U2.
      apply andb_true_iff in U1 as [K1 V1]. apply andb_true_iff in U2 as [K2 V2].
      apply negb_true_iff in K1, V1, K2, V2.
      rewrite !makeTagQuery_cons in E.
      destruct (cut_at_first_unique _ _ _ _ _ K1 K2 E) as [-> E'].
      destruct r1 as [|i1 r1], r2 as [|i2 r2]; unfold query_tail in E'.
      * rewrite !string_app_empty_r in E'. now subst.
      * rewrite string_app_empty_r in E'.
        apply (f_equal (occurs "&"%char)) in E'.
        rewrite occurs_app, V1, V2 in E'. simpl in E'. discriminate.
      * rewrite string_app_empty_r in E'.
        apply (f_equal (occurs "&"%char)) in E'.
        rewrite occurs_app, V1, V2 in E'. simpl in E'. discriminate.
      * simpl in E'.
        destruct (cut_at_first_unique _ _ _ _ _ V1 V2 E') as [-> E''].
        now rewrite (IH (i2 :: r2) H1 H2 E'').
Qed.

End TagQueryProperties.

Section RequestContextProperties.
Context {Loc : Type} {C : Collaborators Loc} {T : TagCollaborators Loc}.

Local Open Scope list_scope.

(** [updateRequestContexts] once the tag query of the request and the
    decoded version id are known. *)
Lemma updateRequestContexts_read_step (request : Request.t)
  (requestContexts : list RequestContext.t) (apiMethod : string)
  (requestTagsQuery : option string) (reqVersionId : option string)
  (w w1 : World Loc) :
  requestTags request apiMethod = inr requestTagsQuery ->
  decodeVersionId (Request.query request) w = (option_map inr reqVersionId, w1) ->
  updateRequestContexts request requestContexts apiMethod w =
    let options := DelOptions.mk reqVersionId None in
    let g :=
      metadata_getObjectMD (Request.bucketName request) (Request.objectKey request)
        options (store w1) in
    let w2 :=
      mkWorld (snd g)
        (calls w1 ++ [CallGetObjectMD (Request.bucketName request)
                        (Request.objectKey request) options]) in
    match fst g with
    | inl err =>
        if ArsenalError.is_NoSuchKey err
        then ((None, Some (map (setTagQueries requestTagsQuery None) requestContexts)),
              w2)
        else ((Some err, None), w2)
    | inr objMD =>
        ((None,
          Some (map (setTagQueries requestTagsQuery
                       (option_map makeTagQuery (objMD_tags objMD)))
                  requestContexts)), w2)
    end.
Proof.
  intros Htags Hdec. unfold updateRequestContexts. rewrite Htags.
  unfold bind at 1. rewrite Hdec.
  destruct reqVersionId as [v|]; simpl; unfold bind, getObjectMD, ret;
    match goal with
    | |- context [metadata_getObjectMD ?b ?k ?o ?s] =>
        destruct (metadata_getObjectMD b k o s) as [[err | objMD] s2]
    end; simpl; try reflexivity;
    destruct (ArsenalError.is_NoSuchKey err); reflexivity.
Qed.

(** X27.  [updateRequestContexts] rejects a request before reading any
    metadata in two cases.  When the tags of an [objectPutTagging] body do
    not parse, the parser's error is passed on and no collaborator of the
    log is called.  When the version id of the query does not decode, the
    error is [InvalidArgument] 'Invalid version id specified' and the only
    call is the one to the codec.  In both cases no contexts are handed
    back. *)
Theorem updateRequestContexts_rejects_before_reading (request : Request.t)
  (requestContexts : list RequestContext.t) (apiMethod : string) (w : World Loc) :
  (forall post err,
      truthy (Request.x_amz_tagging request) = false ->
      Request.post request = Some post -> post <> "" ->
      apiMethod = "objectPutTagging" ->
      parseTagXml post = inl err ->
      updateRequestContexts request requestContexts apiMethod w
      = ((Some err, None), w))
  /\ (forall requestTagsQuery q versionId,
        requestTags request apiMethod = inr requestTagsQuery ->
        Request.query request = Some q ->
        Query.versionId q = Some versionId ->
        versionId <> "" -> versionId <> "null" ->
        (forall decoded, versionIdUtils_decode versionId <> DecodeReturns decoded) ->
        updateRequestContexts request requestContexts apiMethod w
        = ((Some (ArsenalError.mk "InvalidArgument"
                    (Some "Invalid version id specified")), None),
           mkWorld (store w) (calls w ++ [CallDecode versionId]))).
Proof.
  split.
  - intros post err Hh Hp Hne -> Hx.
    unfold updateRequestContexts, requestTags. rewrite Hh, Hp.
    assert (Ht : truthy (Some post) = true).
    { cbv [truthy truthy_string]. apply String.eqb_neq in Hne. now rewrite Hne. }
    rewrite Ht, Hx. reflexivity.
  - intros rq [qv] versionId Htags Hq Hv He Hn Hdec. simpl in Hv. subst qv.
    unfold updateRequestContexts. rewrite Htags, Hq.
    unfold bind at 1.
    destruct (decodeVersionId_cases (Some (Query.mk (Some versionId))) w)
      as [E | (q' & v & Eq & Ev & _ & [[-> _] | [_ E]])].
    + exfalso. unfold decodeVersionId in E. simpl in E.
      cbv [truthy truthy_string] in E. apply String.eqb_neq in He.
      rewrite He in E. simpl in E. unfold bind in E.
      destruct (decodeVID versionId w); discriminate.
    + injection Eq as <-. simpl in Ev. congruence.
    + injection Eq as <-. simpl in Ev. injection Ev as <-.
      rewrite E.
      destruct (versionIdUtils_decode versionId) as [| |decoded] eqn:Ed;
        try reflexivity.
      exfalso. exact (Hdec decoded eq_refl).
Qed.

(** X28.  When the read of the object's metadata fails in
    [updateRequestContexts], a [NoSuchKey] error is not an error of the
    operation: every context is marked for tag evaluation and gets the tags
    of the request, and no existing tags.  Any other error is passed on
    unchanged and no contexts are handed back. *)
Theorem updateRequestContexts_read_failure (request : Request.t)
  (requestContexts : list RequestContext.t) (apiMethod : string)
  (requestTagsQuery reqVersionId : option string) (w w1 : World Loc)
  (err : ArsenalError.t) (s2 : Store) :
  requestTags request apiMethod = inr requestTagsQuery ->
  decodeVersionId (Request.query request) w = (option_map inr reqVersionId, w1) ->
  metadata_getObjectMD (Request.bucketName request) (Request.objectKey request)
    (DelOptions.mk reqVersionId None) (store w1) = (inl err, s2) ->
  fst (updateRequestContexts request requestContexts apiMethod w) =
    if ArsenalError.is_NoSuchKey err
    then (None, Some (map (setTagQueries requestTagsQuery None) requestContexts))
    else (Some err, None).
Proof.
  intros Htags Hdec Hget.
  rewrite (@updateRequestContexts_read_step request requestContexts apiMethod
             requestTagsQuery reqVersionId w w1 Htags Hdec).
  cbv zeta.
  rewrite Hget. simpl. destruct (ArsenalError.is_NoSuchKey err); reflexivity.
Qed.

(** Every run of [updateRequestContexts]: the calls it adds to the log and
    the two shapes of its result. *)
Lemma updateRequestContexts_outcome (request : Request.t)
  (requestContexts : list RequestContext.t) (apiMethod : string) (w : World Loc) :
  exists l,
    calls (snd (updateRequestContexts request requestContexts apiMethod w))
    = calls w ++ l
    /\ forallb (fun c => is_decode_call c || is_get_call c) l = true
    /\ ((exists err,
           fst (updateRequestContexts request requestContexts apiMethod w)
           = (Some err, None))
        \/ (exists requestTagsQuery existingTagsQuery,
              fst (updateRequestContexts request requestContexts apiMethod w)
              = (None,
                 Some (map (setTagQueries requestTagsQuery existingTagsQuery)
                         requestContexts)))).
Proof.
  destruct (requestTags request apiMethod) as [err | rq] eqn:Htags.
  { exists []. unfold updateRequestContexts. rewrite Htags. simpl.
    rewrite app_nil_r. repeat split. left. now exists err. }
  assert (Hread : forall reqVersionId w1 l1,
             decodeVersionId (Request.query request) w
             = (option_map inr reqVersionId, w1) ->
             calls w1 = calls w ++ l1 ->
             forallb (fun c : Call Loc => is_decode_call c || is_get_call c) l1 = true ->
             exists l,
               calls (snd (updateRequestContexts request requestContexts apiMethod w))
               = calls w ++ l
               /\ forallb (fun c => is_decode_call c || is_get_call c) l = true
               /\ ((exists err,
                      fst (updateRequestContexts request requestContexts apiMethod w)
                      = (Some err, None))
                   \/ (exists a b,
                         fst (updateRequestContexts request requestContexts apiMethod w)
                         = (None, Some (map (setTagQueries a b) requestContexts))))).
  { intros rv w1 l1 Hdec Hl1 Hf.
    rewrite (@updateRequestContexts_read_step request requestContexts apiMethod
               rq rv w w1 Htags Hdec).
    cbv zeta.
    exists (l1 ++ [CallGetObjectMD (Request.bucketName request)
                     (Request.objectKey request) (DelOptions.mk rv None)]).
    destruct (metadata_getObjectMD (Request.bucketName request)
                (Request.objectKey request) (DelOptions.mk rv None) (store w1))
      as [[err | objMD] s2]; simpl;
      [destruct (ArsenalError.is_NoSuchKey err); simpl|];
      (split; [rewrite Hl1, app_assoc; reflexivity|]);
      (split; [rewrite forallb_app, Hf; reflexivity|]);
      eauto. }
  destruct (decodeVersionId_cases (Request.query request) w)
    as [E | (q & v & _ & _ & _ & [[_ E] | [_ E]])].
  - apply (Hread None w []); [exact E | now rewrite app_nil_r | reflexivity].
  - apply (Hread (Some "null") w []);
      [exact E | now rewrite app_nil_r | reflexivity].
  - assert (Hfail : forall err,
               decodeVersionId (Request.query request) w
               = (Some (inl err), mkWorld (store w) (calls w ++ [CallDecode v])) ->
               updateRequestContexts request requestContexts apiMethod w
               = ((Some err, None), mkWorld (store w) (calls w ++ [CallDecode v]))).
    { intros err Hd. unfold updateRequestContexts. rewrite Htags.
      unfold bind at 1. rewrite Hd. reflexivity. }
    destruct (versionIdUtils_decode v) as [| |decoded] eqn:Ed.
    + exists [CallDecode v]. rewrite (Hfail _ E). simpl. repeat split.
      left. eauto.
    + exists [CallDecode v]. rewrite (Hfail _ E). simpl. repeat split.
      left. eauto.
    + apply (Hread (Some decoded) (mkWorld (store w) (calls w ++ [CallDecode v]))
               [CallDecode v]); [exact E | reflexivity | reflexivity].
Qed.

(** X29.  [updateRequestContexts] hands back either an error and no
    contexts, or no error and as many contexts as it was given, each of
    them marked for tag evaluation. *)
Theorem updateRequestContexts_marks_every_context (request : Request.t)
  (requestContexts : list RequestContext.t) (apiMethod : string) (w : World Loc) :
  let r := fst (updateRequestContexts request requestContexts apiMethod w) in
  (exists err, r = (Some err, None))
  \/ (exists updatedContexts,
        r = (None, Some updatedContexts)
        /\ length updatedContexts = length requestContexts
        /\ Forall (fun rc => RequestContext.needTagEval rc = true) updatedContexts).
Proof.
  intro r. subst r.
  destruct (updateRequestContexts_outcome request requestContexts apiMethod w)
    as (l & _ & _ & [Herr | (a & b & Hok)]); [now left|].
  right. eexists. split; [exact Hok|]. split; [apply length_map|].
  apply Forall_forall. intros rc Hin. apply in_map_iff in Hin as (rc0 & <- & _).
  unfold setTagQueries.
  destruct (truthy a), (truthy b); reflexivity.
Qed.

(** X30.  [updateRequestContexts] only reads: whatever the request and
    the answers of its collaborators, the calls it adds to the log are
    calls to the codec and to [getObjectMD], never a [putObjectMD] or a
    [deleteObjectMD]. *)
Theorem updateRequestContexts_never_writes (request : Request.t)
  (requestContexts : list RequestContext.t) (apiMethod : string) (w : World Loc) :
  exists l,
    calls (snd (updateRequestContexts request requestContexts apiMethod w))
    = calls w ++ l
    /\ forallb (fun c => negb (is_put_call c) && negb (is_delete_call c)) l = true.
Proof.
  destruct (updateRequestContexts_outcome request requestContexts apiMethod w)
    as (l & Hl & Hf & _).
  exists l. split; [exact Hl|].
  rewrite forallb_forall in *. intros c Hin. specialize (Hf c Hin).
  destruct c; simpl in *; try reflexivity; discriminate.
Qed.

End RequestContextProperties.

(* ================================================================== *)
(** * The further properties on explicit inputs *)

(** The identifier ["v12"] decodes to ["12"] with one call to the codec. *)
Lemma decodeVID_calls_codec_once_witness :
  decodeVID (C := MemBackend.collaborators) "v12" (MemBackend.world [] false)
  = (inr "12",
     mkWorld (C := MemBackend.collaborators) (MemBackend.mk [] false)
       [CallDecode "v12"]).
Proof.
  refine (@decodeVID_calls_codec_once nat MemBackend.collaborators "v12"
            (MemBackend.world [] false) _).
  discriminate.
Defined.

(** The codec returns an error for ["x12"]. *)
Lemma decodeVersionId_effects_and_errors_witness :
  fst (decodeVersionId (C := MemBackend.collaborators)
         (Some (Query.mk (Some "x12"))) (MemBackend.world [] false))
  = Some (inl (ArsenalError.mk "InvalidArgument" (Some "Invalid version id specified")))
  /\ ArsenalError.mk "InvalidArgument" (Some "Invalid version id specified")
     = ArsenalError.mk "InvalidArgument" (Some "Invalid version id specified").
Proof.
  split; [reflexivity|].
  exact (proj2 (proj2
    (@decodeVersionId_effects_and_errors nat MemBackend.collaborators
       (Some (Query.mk (Some "x12"))) (MemBackend.world [] false))) _ eq_refl).
Defined.

(** A query without version id is accepted and decodes to [undefined]. *)
Lemma checkQueryVersionId_accepts_iff_witness :
  checkQueryVersionId (Some (Query.mk None)) = None
  /\ decodeVersionId (C := MemBackend.collaborators) (Some (Query.mk None))
       (MemBackend.world [] false)
     = (None, MemBackend.world [] false).
Proof.
  split; [reflexivity|].
  exact (proj2 (proj2
    (@checkQueryVersionId_accepts_iff nat MemBackend.collaborators
       (Some (Query.mk None)))) eq_refl (MemBackend.world [] false)).
Defined.

(** The header of a null-version master and of a versioned master. *)
Lemma getVersionIdResHeader_cases_witness :
  getVersionIdResHeader MemBackend.encode
    (Some (VersioningConfiguration.mk (Some "Enabled"))) MemBackend.nullMaster
  = Some "null"
  /\ getVersionIdResHeader MemBackend.encode
       (Some (VersioningConfiguration.mk (Some "Enabled"))) MemBackend.plainMaster
     = Some "vV2".
Proof.
  split.
  - refine (proj1 (proj2
      (@getVersionIdResHeader_cases nat MemBackend.encode
         (Some (VersioningConfiguration.mk (Some "Enabled"))) MemBackend.nullMaster))
      _ (or_introl eq_refl)).
    discriminate.
  - refine (proj2 (proj2
      (@getVersionIdResHeader_cases nat MemBackend.encode
         (Some (VersioningConfiguration.mk (Some "Enabled"))) MemBackend.plainMaster))
      "V2" _ eq_refl eq_refl _); discriminate.
Defined.

(** A bucket whose configuration has no status is treated as enabled. *)
Lemma processVersioningState_not_suspended_creates_version_witness :
  Options.versioning
    (Decision.options
       (processVersioningState (C := MemBackend.collaborators)
          (getMasterState (Some MemBackend.nullMaster)) None))
  = Some true
  /\ Decision.delOptions
       (processVersioningState (C := MemBackend.collaborators)
          (getMasterState (Some MemBackend.nullMaster)) None)
     = None.
Proof.
  assert (H : @None string <> Some "Suspended") by discriminate.
  pose proof
    (@processVersioningState_not_suspended_creates_version nat
       MemBackend.collaborators (getMasterState (Some MemBackend.nullMaster)) None H)
    as P.
  split; [exact (proj1 P) | exact (proj2 (proj2 (proj2 (proj2 P))))].
Defined.

(** A versioned master that refers to the null version ["V1"], suspended. *)
Lemma processVersioningState_suspended_versioned_master_witness :
  Decision.delOptions
    (processVersioningState (C := MemBackend.collaborators)
       (getMasterState (Some MemBackend.versionedMaster)) (Some "Suspended"))
  = Some (DelOptions.mk (Some "V1") (Some "U1")).
Proof.
  assert (H1 : Some "V2" <> @None string) by discriminate.
  assert (H2 : Some "V1" <> @None string) by discriminate.
  exact (proj2 (proj2
    (@processVersioningState_suspended_versioned_master nat MemBackend.collaborators
       (getMasterState (Some MemBackend.versionedMaster)) H1 eq_refl)) H2).
Defined.

(** The same master, enabled: the reference to ["V1"] is carried over. *)
Lemma processVersioningState_enabled_versioned_master_witness :
  processVersioningState (C := MemBackend.collaborators)
    (getMasterState (Some MemBackend.versionedMaster)) (Some "Enabled")
  = Decision.mk
      (Options.mk None None (Some true) (Some "V1") (Some "U1") None) None None.
Proof.
  assert (H1 : Some "V2" <> @None string) by discriminate.
  assert (H2 : Some "Enabled" <> Some "Suspended") by discriminate.
  exact (@processVersioningState_enabled_versioned_master nat MemBackend.collaborators
           (getMasterState (Some MemBackend.versionedMaster)) (Some "Enabled")
           H1 eq_refl H2).
Defined.

(** An unversioned object on an enabled bucket is stored under the
    reserved identifier, which the new master refers to. *)
Lemma processVersioningState_storeOptions_referenced_witness :
  Decision.storeOptions
    (processVersioningState (C := MemBackend.collaborators)
       (getMasterState (Some MemBackend.unversioned)) (Some "Enabled"))
  = Some (StoreOptions.mk (Some MemBackend.infVid) (Some true))
  /\ Options.nullVersionId
       (Decision.options
          (processVersioningState (C := MemBackend.collaborators)
             (getMasterState (Some MemBackend.unversioned)) (Some "Enabled")))
     = Some MemBackend.infVid.
Proof.
  split; [reflexivity|].
  exact (proj2 (proj2 (proj2 (proj2
    (@processVersioningState_storeOptions_referenced nat MemBackend.collaborators
       (getMasterState (Some MemBackend.unversioned)) (Some "Enabled")
       (StoreOptions.mk (Some MemBackend.infVid) (Some true)) eq_refl))))).
Defined.

(** The delete decided for a versioned master targets the version it
    refers to. *)
Lemma processVersioningState_delOptions_target_witness :
  Decision.delOptions
    (processVersioningState (C := MemBackend.collaborators)
       (getMasterState (Some MemBackend.versionedMaster)) (Some "Suspended"))
  = Some (DelOptions.mk (Some "V1") (Some "U1"))
  /\ MasterState.nullVersionId (getMasterState (Some MemBackend.versionedMaster))
     <> None.
Proof.
  split; [reflexivity|].
  exact (proj1 (proj2 (proj2
    (@processVersioningState_delOptions_target nat MemBackend.collaborators
       (getMasterState (Some MemBackend.versionedMaster)) (Some "Suspended")
       (DelOptions.mk (Some "V1") (Some "U1")) eq_refl)) eq_refl)).
Defined.

(** The record of ["V1"] holds one location: the read returns it as an
    array. *)
Lemma _getNullVersionsToDelete_reads_like_getMasterState_witness :
  _getNullVersionsToDelete (C := MemBackend.collaborators) "bucket" "key"
    (DelOptions.mk (Some "V1") (Some "U1"))
    (getMasterState (Some MemBackend.versionedMaster))
    (MemBackend.world [(Some "V1", MemBackend.nullVersion)] false)
  = (inr (Some [3]),
     mkWorld (C := MemBackend.collaborators)
       (MemBackend.mk [(Some "V1", MemBackend.nullVersion)] false)
       [CallGetObjectMD "bucket" "key" (DelOptions.mk (Some "V1") (Some "U1"))]).
Proof.
  refine (@_getNullVersionsToDelete_reads_like_getMasterState nat
            MemBackend.collaborators "bucket" "key"
            (DelOptions.mk (Some "V1") (Some "U1"))
            (getMasterState (Some MemBackend.versionedMaster))
            (MemBackend.world [(Some "V1", MemBackend.nullVersion)] false)
            MemBackend.nullVersion
            (MemBackend.mk [(Some "V1", MemBackend.nullVersion)] false)
            _ eq_refl).
  discriminate.
Defined.

(** The record of ["V1"] is gone: the read fails and nothing is deleted. *)
Lemma _deleteNullVersionMD_failed_read_skips_delete_witness :
  _deleteNullVersionMD (C := MemBackend.collaborators) "bucket" "key"
    (DelOptions.mk (Some "V1") (Some "U1"))
    (getMasterState (Some MemBackend.versionedMaster))
    (MemBackend.world [] false)
  = (inl errors.NoSuchKey,
     mkWorld (C := MemBackend.collaborators) (MemBackend.mk [] false)
       [CallGetObjectMD "bucket" "key" (DelOptions.mk (Some "V1") (Some "U1"))]).
Proof.
  refine (@_deleteNullVersionMD_failed_read_skips_delete nat
            MemBackend.collaborators "bucket" "key"
            (DelOptions.mk (Some "V1") (Some "U1"))
            (getMasterState (Some MemBackend.versionedMaster))
            (MemBackend.world [] false) errors.NoSuchKey (MemBackend.mk [] false)
            _ eq_refl).
  discriminate.
Defined.

(** An overwrite on a bucket without versioning configuration. *)
Lemma versioningPreprocessing_without_versioning_witness :
  versioningPreprocessing (C := MemBackend.collaborators) "bucket"
    MemBackend.unconfigured "key" (Some MemBackend.unversioned)
    (MemBackend.world [] true)
  = ((None, Options.mk None None None None None (Some [7])),
     MemBackend.world [] true).
Proof.
  exact (@versioningPreprocessing_without_versioning nat MemBackend.collaborators
           "bucket" MemBackend.unconfigured "key" (Some MemBackend.unversioned)
           (MemBackend.world [] true) eq_refl).
Defined.

(** The store of an unversioned object on an enabled bucket succeeds. *)
Lemma versioningPreprocessing_store_success_witness :
  versioningPreprocessing (C := MemBackend.collaborators) "bucket"
    MemBackend.enabled "key" (Some MemBackend.unversioned)
    (MemBackend.world [] false)
  = ((None, Options.mk None None (Some true) (Some MemBackend.infVid) None None),
     mkWorld (C := MemBackend.collaborators)
       (MemBackend.mk
          [(Some MemBackend.infVid,
            MemBackend.record (Some MemBackend.infVid) (Some "U0") (Some true)
              None None (LocArray [7]))] false)
       [CallPutObjectMD "bucket" "key"
          (MemBackend.record (Some MemBackend.infVid) (Some "U0") (Some true)
             None None (LocArray [7]))
          (PutParams.mk (Some MemBackend.infVid))]).
Proof.
  destruct
    (@versioningPreprocessing_store_success nat MemBackend.collaborators
       "bucket" MemBackend.enabled "key" (Some MemBackend.unversioned)
       (VersioningConfiguration.mk (Some "Enabled"))
       (StoreOptions.mk (Some MemBackend.infVid) (Some true))
       (MemBackend.world [] false)
       (MemBackend.mk
          [(Some MemBackend.infVid,
            MemBackend.record (Some MemBackend.infVid) (Some "U0") (Some true)
              None None (LocArray [7]))] false)
       eq_refl eq_refl eq_refl)
    as (md & Hmd & Hr).
  injection Hmd as <-. exact Hr.
Defined.

(** On a suspended bucket the cleanup of ["V1"] reads, then deletes. *)
Lemma versioningPreprocessing_call_protocol_witness :
  calls (snd (versioningPreprocessing (C := MemBackend.collaborators) "bucket"
                MemBackend.suspended "key" (Some MemBackend.versionedMaster)
                (MemBackend.world [(Some "V1", MemBackend.nullVersion)] false)))
  = [CallGetObjectMD "bucket" "key" (DelOptions.mk (Some "V1") (Some "U1"));
     CallDeleteObjectMD "bucket" "key" (DelOptions.mk (Some "V1") (Some "U1"))]
  /\ (snd (versioningPreprocessing (C := MemBackend.collaborators) "bucket"
             MemBackend.enabled "key" (Some MemBackend.unversioned)
             (MemBackend.world [] false))
      = MemBackend.world [] false
      \/ exists versionMD params,
          calls (snd (versioningPreprocessing (C := MemBackend.collaborators)
                        "bucket" MemBackend.enabled "key"
                        (Some MemBackend.unversioned) (MemBackend.world [] false)))
          = (calls (MemBackend.world [] false)
             ++ [CallPutObjectMD "bucket" "key" versionMD params])%list).
Proof.
  split; [reflexivity|].
  assert (H : Some "Enabled" <> Some "Suspended") by discriminate.
  exact (proj1
    (@versioningPreprocessing_call_protocol nat MemBackend.collaborators
       "bucket" MemBackend.enabled "key" (Some MemBackend.unversioned)
       (VersioningConfiguration.mk (Some "Enabled")) (MemBackend.world [] false)
       eq_refl) H).
Defined.

(** A read-only backend refuses the delete of ["V1"]: the caller sees
    [InternalError]. *)
Lemma versioningPreprocessing_error_kinds_witness :
  fst (fst (versioningPreprocessing (C := MemBackend.collaborators) "bucket"
              MemBackend.suspended "key" (Some MemBackend.versionedMaster)
              (MemBackend.world [(Some "V1", MemBackend.nullVersion)] true)))
  = Some errors.InternalError
  /\ (errors.InternalError = errors.InternalError
      \/ exists vCfg storeOptions,
          BucketMD.getVersioningConfiguration MemBackend.suspended = Some vCfg
          /\ Decision.storeOptions
               (processVersioningState (C := MemBackend.collaborators)
                  (getMasterState (Some MemBackend.versionedMaster))
                  (VersioningConfiguration.Status vCfg)) = Some storeOptions
          /\ fst (metadata_putObjectMD (Collaborators := MemBackend.collaborators)
                    "bucket" "key"
                    (assign_storeOptions (Some MemBackend.versionedMaster) storeOptions)
                    (PutParams.mk (StoreOptions.versionId storeOptions))
                    (store (MemBackend.world [(Some "V1", MemBackend.nullVersion)] true)))
             = Some errors.InternalError).
Proof.
  split; [reflexivity|].
  exact (@versioningPreprocessing_error_kinds nat MemBackend.collaborators
           "bucket" MemBackend.suspended "key" (Some MemBackend.versionedMaster)
           (MemBackend.world [(Some "V1", MemBackend.nullVersion)] true)
           errors.InternalError eq_refl).
Defined.

(** On an enabled bucket the options never hold data to delete. *)
Lemma versioningPreprocessing_keeps_decided_options_witness :
  Options.dataToDelete
    (snd (fst (versioningPreprocessing (C := MemBackend.collaborators) "bucket"
                 MemBackend.enabled "key" (Some MemBackend.nullMaster)
                 (MemBackend.world [] false))))
  = None.
Proof.
  assert (H : Some "Enabled" <> Some "Suspended") by discriminate.
  exact (proj2 (proj2 (proj2 (proj2 (proj2 (proj2
    (@versioningPreprocessing_keeps_decided_options nat MemBackend.collaborators
       "bucket" MemBackend.enabled "key" (Some MemBackend.nullMaster)
       (VersioningConfiguration.mk (Some "Enabled")) (MemBackend.world [] false)
       eq_refl))))) H)).
Defined.

(** The delete of ['null'] fails for a master without null version. *)
Lemma preprocessingVersioningDelete_fails_iff_witness :
  preprocessingVersioningDelete "bucket" MemBackend.enabled MemBackend.plainMaster
    (Some "null")
  = (Some errors.NoSuchKey, None)
  /\ truthy (ObjectMD.nullVersionId MemBackend.plainMaster) = false.
Proof.
  split; [reflexivity|].
  exact (proj2 (proj2 (proj2 (proj2
    (proj1 (proj2
       (@preprocessingVersioningDelete_fails_iff nat "bucket" MemBackend.enabled
          MemBackend.plainMaster (Some "null"))) eq_refl))))).
Defined.

(** An empty version id in the request asks for a delete marker. *)
Lemma preprocessingVersioningDelete_deleteData_witness :
  preprocessingVersioningDelete "bucket" MemBackend.enabled MemBackend.plainMaster
    (Some "")
  = (None, Some (DeleteOptions.mk None None None None)).
Proof.
  refine (proj1 (proj2
    (@preprocessingVersioningDelete_deleteData nat "bucket" MemBackend.enabled
       MemBackend.plainMaster (Some ""))) _ eq_refl).
  discriminate.
Defined.

(** The delete of version ["V5"] of an object whose master is ["V1"]. *)
Lemma preprocessingVersioningDelete_targets_witness :
  preprocessingVersioningDelete "bucket" MemBackend.enabled MemBackend.nullMaster
    (Some "V5")
  = (None, Some (DeleteOptions.mk (Some true) (Some "V5") None (Some "U1")))
  /\ preprocessingVersioningDelete "bucket" MemBackend.enabled
       MemBackend.unversioned (Some "null")
     = (None, Some (DeleteOptions.mk (Some true) None None None)).
Proof.
  assert (H : BucketMD.getVersioningConfiguration MemBackend.enabled <> None)
    by discriminate.
  split.
  - refine (proj1
      (@preprocessingVersioningDelete_targets nat "bucket" MemBackend.enabled
         MemBackend.nullMaster H) "V5" _ _); discriminate.
  - exact (proj1 (proj2
      (@preprocessingVersioningDelete_targets nat "bucket" MemBackend.enabled
         MemBackend.unversioned H)) eq_refl).
Defined.

(** The write path and the delete path both target ["V1"] with ["U1"]. *)
Lemma null_version_target_agrees_witness :
  Decision.delOptions
    (processVersioningState (C := MemBackend.collaborators)
       (getMasterState (Some MemBackend.versionedMaster)) (Some "Suspended"))
  = Some (DelOptions.mk (Some "V1") (Some "U1"))
  /\ exists options,
       preprocessingVersioningDelete "bucket" MemBackend.suspended
         MemBackend.versionedMaster (Some "null")
       = (None, Some options)
       /\ DeleteOptions.deleteData options = Some true
       /\ DeleteOptions.versionId options = Some "V1"
       /\ DeleteOptions.replayId options = Some "U1".
Proof.
  split; [reflexivity|].
  assert (H1 : BucketMD.getVersioningConfiguration MemBackend.suspended <> None)
    by discriminate.
  assert (H2 : ObjectMD.versionId MemBackend.versionedMaster <> None)
    by discriminate.
  assert (H3 : ObjectMD.nullVersionId MemBackend.versionedMaster <> Some "")
    by discriminate.
  exact (@null_version_target_agrees nat MemBackend.collaborators "bucket"
           MemBackend.suspended MemBackend.versionedMaster
           (DelOptions.mk (Some "V1") (Some "U1")) H1 H2 H3 eq_refl).
Defined.

(** A restore of three days gives a valid expiry date. *)
Lemma overwritingVersioning_expiry_valid_iff_witness :
  exists ar,
    MetadataStoreParams.archive
      (fst (overwritingVersioning
              (ObjectMD.mk (Some "V2") None None None None (LocArray [7]) None None
                 (Some (Archive.mk None None (Some 3%Z))))
              (MetadataStoreParams.mk None None None None [])
              1700000000000))
    = Some ar
    /\ ArchiveParams.restoreWillExpireAt ar = JSDate.Valid 1700259200000.
Proof.
  destruct
    (@overwritingVersioning_expiry_valid_iff nat
       (ObjectMD.mk (Some "V2") None None None None (LocArray [7]) None None
          (Some (Archive.mk None None (Some 3%Z))))
       (MetadataStoreParams.mk None None None None [])
       1700000000000)
    as (ar & Har & Hiff).
  exists ar. split; [exact Har|].
  apply (proj2 (Hiff 1700259200000%Z)).
  exists (Archive.mk None None (Some 3%Z)), 3%Z. repeat split.
Defined.

(** A value may hold ['='] and a key may hold ['&']. *)
Lemma makeTagQuery_injective_witness :
  forallb unambiguous_tag [("env", "prod"); ("a&b", "c=d")] = true
  /\ makeTagQuery [("env", "prod"); ("a&b", "c=d")] = "env=prod&a&b=c=d"
  /\ [("env", "prod"); ("a&b", "c=d")] = [("env", "prod"); ("a&b", "c=d")].
Proof.
  split; [reflexivity|]. split; [reflexivity|].
  exact (proj2
    (makeTagQuery_injective [("env", "prod"); ("a&b", "c=d")]
       [("env", "prod"); ("a&b", "c=d")]) eq_refl eq_refl eq_refl).
Defined.

(** A version id that does not decode, and a body that does not parse. *)
Lemma updateRequestContexts_rejects_before_reading_witness :
  updateRequestContexts (C := MemBackend.collaborators)
    (T := MemBackend.tagCollaborators)
    (MemBackend.request (Some "a=b") None (Some "x12"))
    [MemBackend.context] "objectGet"
    (MemBackend.world [(None, MemBackend.unversioned)] false)
  = ((Some (ArsenalError.mk "InvalidArgument" (Some "Invalid version id specified")),
      None),
     mkWorld (C := MemBackend.collaborators)
       (MemBackend.mk [(None, MemBackend.unversioned)] false)
       [CallDecode "x12"])
  /\ updateRequestContexts (C := MemBackend.collaborators)
       (T := MemBackend.tagCollaborators)
       (MemBackend.request None (Some "not xml") None)
       [MemBackend.context] "objectPutTagging"
       (MemBackend.world [(None, MemBackend.unversioned)] false)
     = ((Some (ArsenalError.mk "MalformedXML" None), None),
        MemBackend.world [(None, MemBackend.unversioned)] false).
Proof.
  split.
  - refine (proj2
      (@updateRequestContexts_rejects_before_reading nat MemBackend.collaborators
         MemBackend.tagCollaborators
         (MemBackend.request (Some "a=b") None (Some "x12"))
         [MemBackend.context] "objectGet"
         (MemBackend.world [(None, MemBackend.unversioned)] false))
      (Some "a=b") (Query.mk (Some "x12")) "x12" eq_refl eq_refl eq_refl _ _ _);
      discriminate.
  - refine (proj1
      (@updateRequestContexts_rejects_before_reading nat MemBackend.collaborators
         MemBackend.tagCollaborators
         (MemBackend.request None (Some "not xml") None)
         [MemBackend.context] "objectPutTagging"
         (MemBackend.world [(None, MemBackend.unversioned)] false))
      "not xml" (ArsenalError.mk "MalformedXML" None) eq_refl eq_refl _ eq_refl eq_refl).
    discriminate.
Defined.

(** The object does not exist: the contexts get the tags of the request. *)
Lemma updateRequestContexts_read_failure_witness :
  fst (updateRequestContexts (C := MemBackend.collaborators)
         (T := MemBackend.tagCollaborators)
         (MemBackend.request (Some "a=b") None None)
         [MemBackend.context] "objectGet" (MemBackend.world [] false))
  = (None, Some [RequestContext.mk true (Some "a=b") None]).
Proof.
  exact (@updateRequestContexts_read_failure nat MemBackend.collaborators
           MemBackend.tagCollaborators
           (MemBackend.request (Some "a=b") None None)
           [MemBackend.context] "objectGet" (Some "a=b") None
           (MemBackend.world [] false) (MemBackend.world [] false)
           errors.NoSuchKey (MemBackend.mk [] false) eq_refl eq_refl eq_refl).
Defined.
